(** * openchain/crypto/node_eca.go: enrollment and trust bootstrap of a node

    A shallow embedding of the six methods of [nodeImpl] in
    [openchain/crypto/node_eca.go] and the properties of them that the
    specification states.

    The file has five parts:
    - the data the code handles (protobuf messages, keys, certificates,
      PEM blocks, errors);
    - the libraries the code calls, as an interface ([GoLib]), and the
      world it runs in (clock, entropy, file system, the remote ECA);
    - the six methods, written in a state monad over the world, one
      definition per Go function and with the Go names;
    - a small library and world on which the methods compute;
    - the properties, first for every library, then on the small one.

    Logging ([node.log.Error], [node.log.Debug]) has no effect on any other
    state and is left out. *)

From Stdlib Require Import ZArith String List DecimalString DecimalZ Lia.
From Stdlib.Strings Require Import Byte.
From stdpp Require Import base option gmap strings list.

Open Scope string_scope.
Open Scope Z_scope.
Open Scope list_scope.

(** ** Data *)

(** [[]byte] *)
Abbreviation bytes := (list byte).

#[global] Instance byte_eq_decision : EqDecision byte := byte_eq_dec.

(** Go's [error] interface values, by the package that makes them. The code
    never inspects an error: it returns it to its caller as it is. *)
Inductive error : Type :=
| errors_New (text : string)                  (* errors.New(text) *)
| os_PathError (op path : string) (errno : Z)  (* *os.PathError *)
| io_ErrShortWrite                            (* io.ErrShortWrite *)
| asn1_SyntaxError (msg : string)             (* encoding/asn1, crypto/x509 *)
| x509_Error (msg : string)
| proto_Error (msg : string)                  (* github.com/golang/protobuf *)
| crypto_Error (msg : string)                 (* crypto/ecdsa, crypto/rand *)
| text_Error (msg : string)                   (* math/big text encoding *)
| grpc_rpcError (code : Z) (desc : string).   (* google.golang.org/grpc *)

#[global] Instance error_eq_decision : EqDecision error.
Proof. solve_decision. Defined.

(** A Go call [v, err := f(...)] whose [v] is meaningless when [err != nil]. *)
Inductive result (A : Type) : Type :=
| Ok (v : A)
| Err (e : error).
Arguments Ok {A} v.
Arguments Err {A} e.

(** *** Messages of obc-ca/protos, as the code builds and reads them.
    A pointer field is an [option]: [None] is Go's [nil]. *)

Inductive CryptoType : Type :=
| CryptoType_ECDSA
| CryptoType_RSA
| CryptoType_DSA.

(** google/protobuf: [Seconds] is an int64, [Nanos] an int32. *)
Record Timestamp : Type := mkTimestamp {
  Timestamp_Seconds : Z;
  Timestamp_Nanos : Z
}.

Record Identity : Type := mkIdentity { Identity_Id : string }.

Record Password : Type := mkPassword { Password_Pw : string }.

Record PublicKey : Type := mkPublicKey {
  PublicKey_Type : CryptoType;
  PublicKey_Key : bytes
}.

Record Signature : Type := mkSignature {
  Signature_Type : CryptoType;
  Signature_R : bytes;
  Signature_S : bytes
}.

Record ECertCreateReq : Type := mkECertCreateReq {
  ECertCreateReq_Ts : option Timestamp;
  ECertCreateReq_Id : option Identity;
  ECertCreateReq_Pw : option Password;
  ECertCreateReq_Pub : option PublicKey;
  ECertCreateReq_Sig : option Signature
}.

(** [req.Sig = sig] *)
Definition set_Sig (req : ECertCreateReq) (sig : option Signature) : ECertCreateReq :=
  {| ECertCreateReq_Ts := ECertCreateReq_Ts req;
     ECertCreateReq_Id := ECertCreateReq_Id req;
     ECertCreateReq_Pw := ECertCreateReq_Pw req;
     ECertCreateReq_Pub := ECertCreateReq_Pub req;
     ECertCreateReq_Sig := sig |}.

Record ECertReadReq : Type := mkECertReadReq {
  ECertReadReq_Id : option Identity;
  ECertReadReq_Hash : option bytes
}.

Record Cert : Type := mkCert { Cert_Cert : bytes }.

Record Creds : Type := mkCreds {
  Creds_Cert : option Cert;
  Creds_Key : bytes
}.

(** *** Keys: crypto/ecdsa's structs, a [*big.Int] as a [Z]. *)

Inductive Curve : Type := P224 | P256 | P384 | P521.

Record ecdsa_PublicKey : Type := mk_ecdsa_PublicKey {
  pk_Curve : Curve;
  pk_X : Z;
  pk_Y : Z
}.

Record ecdsa_PrivateKey : Type := mk_ecdsa_PrivateKey {
  priv_PublicKey : ecdsa_PublicKey;
  priv_D : Z
}.

(** *** Certificates and PEM.
    Of an [x509.Certificate] only [Raw] is kept, the DER bytes it was parsed
    from: [Certificate.Equal], which the pool uses, compares nothing else. *)
Record x509_Certificate : Type := mk_x509_Certificate { Raw : bytes }.

Definition Certificate_Equal (c d : x509_Certificate) : bool :=
  bool_decide (Raw c = Raw d).

Record pem_Block : Type := mk_pem_Block {
  Block_Type : string;
  Block_Headers : list (string * string);
  Block_Bytes : bytes
}.

(** [x509.CertPool]: the certificates in the order they were added. *)
Abbreviation CertPool := (list x509_Certificate).

(** [CertPool.AddCert]: a certificate already in the pool is not added twice. *)
Definition AddCert (s : CertPool) (cert : x509_Certificate) : CertPool :=
  if existsb (fun c => Certificate_Equal c cert) s then s else s ++ [cert].

(** *** Files: contents and permission bits ([os.FileMode], 9 bits used). *)
Record File : Type := mkFile {
  file_data : bytes;
  file_mode : Z
}.

(** The mode the code passes to [ioutil.WriteFile]: octal 0700. *)
Definition perm_0700 : Z := 0x1c0.

(** Octal 0077: every permission bit of group and others. *)
Definition group_other_bits : Z := 0x3f.

(** *** The node: [node.conf] and [node.rootsCertPool]. *)
Record configuration : Type := mkConfiguration {
  getECACertsChainPath : string;
  getECAPAddr : string
}.

Record nodeImpl : Type := mkNode {
  conf : configuration;
  rootsCertPool : CertPool
}.

(** ** The libraries the code calls *)

(** The functions of Go's libraries, and of this repository's [utils]
    package (which is not part of the file under study), that
    node_eca.go calls. A Go function that returns a value together with an
    error the code discards ([pubraw, _ := ...]) returns a pair here:
    the value is used whatever the error. *)
Class GoLib : Type := {
  (** the state of [crypto/rand.Reader] *)
  Entropy : Type;
  utils_NewECDSAKey : Entropy -> result ecdsa_PrivateKey * Entropy;
  ecdsa_Sign : Entropy -> ecdsa_PrivateKey -> bytes -> result (Z * Z) * Entropy;
  x509_MarshalPKIXPublicKey : ecdsa_PublicKey -> bytes * option error;
  proto_Marshal : ECertCreateReq -> bytes * option error;
  utils_Hash : bytes -> bytes;
  big_MarshalText : Z -> bytes * option error;
  utils_DERToX509Certificate : bytes -> result x509_Certificate;
  utils_DERCertToPEM : bytes -> bytes;
  x509_ParseCertificate : bytes -> result x509_Certificate;
  (** [pem.Decode data]: [None] when no block is found ([block == nil]);
      [Some (block, k)] when [block] is found and the rest that Go returns is
      [data] without its first [k + 1] bytes (the rest is a strict suffix of
      the input: a block is never empty). *)
  pem_Decode : bytes -> option (pem_Block * nat)
}.


(** ** The world the node runs in *)

Section Node.
Context `{GoLib}.

(** The remote enrollment certificate authority, as seen from the node:
    whether dialing its address succeeds, and what it answers to each call. *)
Record ECAServer : Type := mkECAServer {
  eca_Dial : string -> option error;
  eca_CreateCertificate : ECertCreateReq -> result Creds;
  eca_ReadCACertificate : result Cert;
  eca_ReadCertificate : ECertReadReq -> result Cert
}.

(** What the node does on the network, in order. *)
Inductive NetEvent : Type :=
| EvDial (target : string)                  (* grpc.Dial(target, grpc.WithInsecure()) *)
| EvCreateCertificate (in_ : ECertCreateReq) (* ECAP.CreateCertificate(in) sent *)
| EvReadCACertificate                       (* ECAP.ReadCACertificate(&protobuf.Empty{}) sent *)
| EvReadCertificate (in_ : ECertReadReq)     (* ECAP.ReadCertificate(in) sent *)
| EvClose.                                  (* sockP.Close() *)

(** Which system call of the next file operation fails, if any.
    [write_stops = Some (n, e)]: [f.Write] stops after [n] bytes and
    returns the error [e] (or none). The plan is given, for one call: why
    the system refuses (a full disk, a file the process may not open) is
    not worked out from the modes of the files, and nothing said of a
    second call may rest on the plan of the first. *)
Record DiskPlan : Type := mkDiskPlan {
  open_fails : option error;
  write_stops : option (nat * option error);
  close_fails : option error;
  read_fails : option error
}.

Record World : Type := mkWorld {
  now : Z;                     (* time.Now().Unix() *)
  rand : Entropy;              (* crypto/rand.Reader *)
  files : gmap string File;
  umask : Z;                   (* the process's file mode creation mask *)
  disk : DiskPlan;
  eca : ECAServer;
  wire : list NetEvent
}.

Definition set_rand (w : World) (e : Entropy) : World :=
  mkWorld (now w) e (files w) (umask w) (disk w) (eca w) (wire w).

Definition set_files (w : World) (fs : gmap string File) : World :=
  mkWorld (now w) (rand w) fs (umask w) (disk w) (eca w) (wire w).

Definition set_disk (w : World) (d : DiskPlan) : World :=
  mkWorld (now w) (rand w) (files w) (umask w) d (eca w) (wire w).

Definition set_eca (w : World) (srv : ECAServer) : World :=
  mkWorld (now w) (rand w) (files w) (umask w) (disk w) srv (wire w).

Definition emit (w : World) (ev : NetEvent) : World :=
  mkWorld (now w) (rand w) (files w) (umask w) (disk w) (eca w) (wire w ++ [ev]).

(** *** The state monad of the embedding *)

Definition M (A : Type) : Type := World -> A * World.

Definition ret {A : Type} (a : A) : M A := fun w => (a, w).

Definition bind {A B : Type} (m : M A) (k : A -> M B) : M B :=
  fun w => let (a, w') := m w in k a w'.

Notation "x <- c ;; k" := (bind c (fun x => k))
  (at level 100, c at next level, right associativity).

(** *** The effects the code uses *)

Definition time_Now_Unix : M Z := fun w => (now w, w).

Definition NewECDSAKey : M (result ecdsa_PrivateKey) :=
  fun w => let (r, e) := utils_NewECDSAKey (rand w) in (r, set_rand w e).

(** [ecdsa.Sign(rand.Reader, priv, hash)] *)
Definition Sign (priv : ecdsa_PrivateKey) (hash : bytes) : M (result (Z * Z)) :=
  fun w => let (r, e) := ecdsa_Sign (rand w) priv hash in (r, set_rand w e).

(** [ioutil.ReadFile]: the contents of the file, an error when there is none
    (ENOENT is 2) or when reading fails. *)
Definition ioutil_ReadFile (filename : string) : M (result bytes) :=
  fun w =>
    match read_fails (disk w) with
    | Some e => (Err e, w)
    | None =>
      match files w !! filename with
      | Some f => (Ok (file_data f), w)
      | None => (Err (os_PathError "open" filename 2), w)
      end
    end.

(** [ioutil.WriteFile], as Go's library has it:
<<
    f, err := os.OpenFile(filename, os.O_WRONLY|os.O_CREATE|os.O_TRUNC, perm)
    if err != nil { return err }
    n, err := f.Write(data)
    if err == nil && n < len(data) { err = io.ErrShortWrite }
    if err1 := f.Close(); err == nil { err = err1 }
    return err
>>
    Opening truncates a file that exists and keeps its mode; it creates one
    that does not, with mode [perm] less the bits of the umask. The bytes are
    then written to the file at [filename] itself. *)
Definition ioutil_WriteFile (filename : string) (data : bytes) (perm : Z) : M (option error) :=
  fun w =>
    match open_fails (disk w) with
    | Some e => (Some e, w)
    | None =>
      let mode :=
        match files w !! filename with
        | Some f => file_mode f
        | None => Z.ldiff perm (umask w)
        end in
      let '(n, err) :=
        match write_stops (disk w) with
        | Some (n, e) => (Nat.min n (length data), e)
        | None => (length data, None)
        end in
      let err :=
        match err with
        | None => if (n <? length data)%nat then Some io_ErrShortWrite else None
        | Some e => Some e
        end in
      let err :=
        match err with
        | None => close_fails (disk w)
        | Some e => Some e
        end in
      (err, set_files w (<[filename := mkFile (take n data) mode]> (files w)))
    end.

(** [grpc.Dial(target, grpc.WithInsecure())]; the connection is [tt]. *)
Definition grpc_Dial (target : string) : M (result unit) :=
  fun w =>
    match eca_Dial (eca w) target with
    | Some e => (Err e, emit w (EvDial target))
    | None => (Ok tt, emit w (EvDial target))
    end.

Definition sockP_Close : M unit := fun w => (tt, emit w EvClose).

(** The three calls of the generated client [obcca.NewECAPClient(sockP)]. *)
Definition ecaP_CreateCertificate (in_ : ECertCreateReq) : M (result Creds) :=
  fun w => (eca_CreateCertificate (eca w) in_, emit w (EvCreateCertificate in_)).

Definition ecaP_ReadCACertificate : M (result Cert) :=
  fun w => (eca_ReadCACertificate (eca w), emit w EvReadCACertificate).

Definition ecaP_ReadCertificate (in_ : ECertReadReq) : M (result Cert) :=
  fun w => (eca_ReadCertificate (eca w) in_, emit w (EvReadCertificate in_)).

(** [CertPool.AppendCertsFromPEM], as crypto/x509 has it:
<<
    for len(pemCerts) > 0 {
        var block *pem.Block
        block, pemCerts = pem.Decode(pemCerts)
        if block == nil { break }
        if block.Type != "CERTIFICATE" || len(block.Headers) != 0 { continue }
        cert, err := ParseCertificate(block.Bytes)
        if err != nil { continue }
        s.AddCert(cert)
        ok = true
    }
    return
>>
    Every turn of the loop shortens [pemCerts], so [length pemCerts] turns
    are enough: that is the fuel [AppendCertsFromPEM] gives. *)
Fixpoint appendCerts (fuel : nat) (s : CertPool) (pemCerts : bytes) (ok : bool)
  : CertPool * bool :=
  match fuel with
  | O => (s, ok)
  | S fuel =>
    match pemCerts with
    | [] => (s, ok)
    | _ :: _ =>
      match pem_Decode pemCerts with
      | None => (s, ok)
      | Some (block, k) =>
        let pemCerts := drop (S k) pemCerts in
        if negb (String.eqb (Block_Type block) "CERTIFICATE")
           || negb (length (Block_Headers block) =? 0)%nat
        then appendCerts fuel s pemCerts ok
        else
          match x509_ParseCertificate (Block_Bytes block) with
          | Err _ => appendCerts fuel s pemCerts ok
          | Ok cert => appendCerts fuel (AddCert s cert) pemCerts true
          end
      end
    end
  end.

Definition AppendCertsFromPEM (s : CertPool) (pemCerts : bytes) : CertPool * bool :=
  appendCerts (length pemCerts) s pemCerts false.


(** ** The methods of [nodeImpl] in node_eca.go *)

(** What a call that may dereference a nil pointer does: it returns, or it
    panics. *)
Inductive outcome (A : Type) : Type :=
| Returns (r : result A)
| Panics.
Arguments Returns {A} r.
Arguments Panics {A}.

(** [callECACreateCertificate]. Neither [ctx] nor [opts] is used. The
    deferred [sockP.Close()] runs when the function returns, after the call. *)
Definition callECACreateCertificate (node : nodeImpl) (in_ : ECertCreateReq)
  : M (result (option Cert * bytes)) :=
  sockP <- grpc_Dial (getECAPAddr (conf node)) ;;
  match sockP with
  | Err err => ret (Err err)
  | Ok _ =>
    cred <- ecaP_CreateCertificate in_ ;;
    _ <- sockP_Close ;;
    match cred with
    | Err err => ret (Err err)
    | Ok cred => ret (Ok (Creds_Cert cred, Creds_Key cred))
    end
  end.

(** [callECAReadCACertificate]. The request [in_] it is given is not used:
    what is sent is [&protobuf.Empty{}]. *)
Definition callECAReadCACertificate (node : nodeImpl) (in_ : ECertReadReq)
  : M (result Cert) :=
  sockP <- grpc_Dial (getECAPAddr (conf node)) ;;
  match sockP with
  | Err err => ret (Err err)
  | Ok _ =>
    cert <- ecaP_ReadCACertificate ;;
    _ <- sockP_Close ;;
    match cert with
    | Err err => ret (Err err)
    | Ok cert => ret (Ok cert)
    end
  end.

(** [callECAReadCertificate] *)
Definition callECAReadCertificate (node : nodeImpl) (in_ : ECertReadReq)
  : M (result Cert) :=
  sockP <- grpc_Dial (getECAPAddr (conf node)) ;;
  match sockP with
  | Err err => ret (Err err)
  | Ok _ =>
    cert <- ecaP_ReadCertificate in_ ;;
    _ <- sockP_Close ;;
    match cert with
    | Err err => ret (Err err)
    | Ok cert => ret (Ok cert)
    end
  end.

(** The request as lines 162 to 167 build it, before it is signed. *)
Definition unsignedRequest (seconds : Z) (id pw : string) (pubraw : bytes)
  : ECertCreateReq :=
  {| ECertCreateReq_Ts := Some (mkTimestamp seconds 0);
     ECertCreateReq_Id := Some (mkIdentity id);
     ECertCreateReq_Pw := Some (mkPassword pw);
     ECertCreateReq_Pub := Some (mkPublicKey CryptoType_ECDSA pubraw);
     ECertCreateReq_Sig := None |}.

(** [getEnrollmentCertificateFromECA]. The errors of
    [x509.MarshalPKIXPublicKey], [proto.Marshal] and the two [MarshalText]
    are assigned to [_]: only the bytes are used. [pbCert.Cert] dereferences
    the [*obcca.Cert] of the answer. *)
Definition getEnrollmentCertificateFromECA (node : nodeImpl) (id pw : string)
  : M (outcome (ecdsa_PrivateKey * bytes * bytes)) :=
  priv <- NewECDSAKey ;;
  match priv with
  | Err err => ret (Returns (Err err))
  | Ok priv =>
    let pubraw := fst (x509_MarshalPKIXPublicKey (priv_PublicKey priv)) in
    seconds <- time_Now_Unix ;;
    let req := unsignedRequest seconds id pw pubraw in
    let rawreq := fst (proto_Marshal req) in
    sig <- Sign priv (utils_Hash rawreq) ;;
    match sig with
    | Err err => ret (Returns (Err err))
    | Ok (r, s) =>
      let R := fst (big_MarshalText r) in
      let S := fst (big_MarshalText s) in
      let req := set_Sig req (Some (mkSignature CryptoType_ECDSA R S)) in
      answer <- callECACreateCertificate node req ;;
      match answer with
      | Err err => ret (Returns (Err err))
      | Ok (pbCert, key) =>
        match pbCert with
        | None => ret Panics
        | Some pbCert => ret (Returns (Ok (priv, Cert_Cert pbCert, key)))
        end
      end
    end
  end.

(** The request [getECACertificate] prepares (line 194). *)
Definition getECACertificate_req : ECertReadReq :=
  mkECertReadReq (Some (mkIdentity "eca-root")) None.

(** [getECACertificate] *)
Definition getECACertificate (node : nodeImpl) : M (result bytes) :=
  let req := getECACertificate_req in
  pbCert <- callECAReadCACertificate node req ;;
  match pbCert with
  | Err err => ret (Err err)
  | Ok pbCert => ret (Ok (Cert_Cert pbCert))
  end.

(** [retrieveECACertsChain] *)
Definition retrieveECACertsChain (node : nodeImpl) (userID : string)
  : M (option error) :=
  ecaCertRaw <- getECACertificate node ;;
  match ecaCertRaw with
  | Err err => ret (Some err)
  | Ok ecaCertRaw =>
    match utils_DERToX509Certificate ecaCertRaw with
    | Err err => ret (Some err)
    | Ok _ =>
      err <- ioutil_WriteFile (getECACertsChainPath (conf node))
                              (utils_DERCertToPEM ecaCertRaw) perm_0700 ;;
      match err with
      | Some err => ret (Some err)
      | None => ret None
      end
    end
  end.

(** [node.rootsCertPool.AppendCertsFromPEM(chain)] changes the pool of the
    node in place: the node after the call is returned with the error. *)
Definition set_rootsCertPool (node : nodeImpl) (s : CertPool) : nodeImpl :=
  mkNode (conf node) s.

(** [loadECACertsChain] *)
Definition loadECACertsChain (node : nodeImpl) : M (option error * nodeImpl) :=
  chain <- ioutil_ReadFile (getECACertsChainPath (conf node)) ;;
  match chain with
  | Err err => ret (Some err, node)
  | Ok chain =>
    let (pool, ok) := AppendCertsFromPEM (rootsCertPool node) chain in
    let node := set_rootsCertPool node pool in
    if negb ok
    then ret (Some (errors_New "Failed appending ECA certificates chain."), node)
    else ret (None, node)
  end.

End Node.

Arguments Returns {A} r.
Arguments Panics {A}.

(** ** What the specification speaks of *)

Section Notions.
Context `{GoLib} `{CALib}.



(** The PEM blocks of a file, in order, as [pem.Decode] finds them one after
    the other. *)
Fixpoint pem_blocks (fuel : nat) (data : bytes) : list pem_Block :=
  match fuel with
  | O => []
  | S fuel =>
    match data with
    | [] => []
    | _ :: _ =>
      match pem_Decode data with
      | None => []
      | Some (block, k) => block :: pem_blocks fuel (drop (S k) data)
      end
    end
  end.

Definition blocks_of (data : bytes) : list pem_Block :=
  pem_blocks (length data) data.

(** The certificate a block holds: the block is a certificate block, without
    headers, and its bytes parse. *)
Definition block_certificate (block : pem_Block) : option x509_Certificate :=
  if String.eqb (Block_Type block) "CERTIFICATE"
     && (length (Block_Headers block) =? 0)%nat
  then match x509_ParseCertificate (Block_Bytes block) with
       | Ok cert => Some cert
       | Err _ => None
       end
  else None.

(** [utils.DERCertToPEM] writes [der] as one certificate block that
    [pem.Decode] reads back, with nothing after it. *)
Definition pem_reads_back (der : bytes) : Prop :=
  exists k,
    pem_Decode (utils_DERCertToPEM der) = Some (mk_pem_Block "CERTIFICATE" [] der, k)
    /\ S k = length (utils_DERCertToPEM der).

(** The events a run added to the wire. *)
Definition sent (w w' : World) : list NetEvent :=
  drop (length (wire w)) (wire w').

(** The ways [getEnrollmentCertificateFromECA] returns an error: the error
    of key generation, of signing, of dialing, or of the call to the
    authority. *)
Definition enrollment_error (node : nodeImpl) (id pw : string) (w : World)
  : option error :=
  match utils_NewECDSAKey (rand w) with
  | (Err err, _) => Some err
  | (Ok priv, e1) =>
    let req0 := unsignedRequest (now w) id pw
                  (fst (x509_MarshalPKIXPublicKey (priv_PublicKey priv))) in
    match ecdsa_Sign e1 priv (utils_Hash (fst (proto_Marshal req0))) with
    | (Err err, _) => Some err
    | (Ok (r, s), _) =>
      match eca_Dial (eca w) (getECAPAddr (conf node)) with
      | Some err => Some err
      | None =>
        match eca_CreateCertificate (eca w)
                (set_Sig req0 (Some (mkSignature CryptoType_ECDSA
                                       (fst (big_MarshalText r))
                                       (fst (big_MarshalText s))))) with
        | Err err => Some err
        | Ok _ => None
        end
      end
    end
  end.
End Notions.

(** ** A small library and world to run the code on

    Stand-ins for Go's libraries, small enough to compute with: decimal text
    for big integers (as [big.Int.MarshalText] writes them), a linear
    signature scheme, certificates as one DER element with a one-byte
    length, PEM blocks as a tag, a length and the bytes. *)

Definition decimal (z : Z) : bytes :=
  list_byte_of_string (NilZero.string_of_int (Z.to_int z)).


Definition byte_sum (b : bytes) : Z :=
  fold_right (fun x acc => Z.of_N (Byte.to_N x) + acc) 0 b.

Definition ex_NewECDSAKey (n : nat) : result ecdsa_PrivateKey * nat :=
  let d := Z.of_nat n + 1 in
  (Ok (mk_ecdsa_PrivateKey (mk_ecdsa_PublicKey P384 (d + 7) (d + 7)) d), S n).

Definition ex_Sign (n : nat) (priv : ecdsa_PrivateKey) (hash : bytes)
  : result (Z * Z) * nat :=
  let k := Z.of_nat n + 1 in
  (Ok (k, k * priv_D priv + byte_sum hash), S n).


Definition ex_MarshalPKIXPublicKey (pub : ecdsa_PublicKey) : bytes * option error :=
  (decimal (pk_X pub), None).


Definition ex_field {A : Type} (f : A -> bytes) (o : option A) : bytes :=
  match o with
  | Some a => f a ++ [x3b]
  | None => [x3b]
  end.

Definition ex_Marshal (req : ECertCreateReq) : bytes * option error :=
  (ex_field (fun ts => decimal (Timestamp_Seconds ts)) (ECertCreateReq_Ts req)
   ++ ex_field (fun i => list_byte_of_string (Identity_Id i)) (ECertCreateReq_Id req)
   ++ ex_field (fun p => list_byte_of_string (Password_Pw p)) (ECertCreateReq_Pw req)
   ++ ex_field PublicKey_Key (ECertCreateReq_Pub req)
   ++ ex_field (fun sg => Signature_R sg ++ [x2c] ++ Signature_S sg)
               (ECertCreateReq_Sig req),
   None).

Definition ex_Hash (b : bytes) : bytes := decimal (byte_sum b mod 65521).

Definition ex_MarshalText (z : Z) : bytes * option error := (decimal z, None).

(** One DER element: the tag of a SEQUENCE (0x30), a length below 128, and
    that many bytes, with nothing after them. *)
Definition ex_ParseCertificate (der : bytes) : result x509_Certificate :=
  match der with
  | x30 :: len :: body =>
    if (Byte.to_nat len <? 128)%nat && (Byte.to_nat len =? length body)%nat
    then Ok (mk_x509_Certificate der)
    else if (length body <? Byte.to_nat len)%nat
         then Err (asn1_SyntaxError "data truncated")
         else Err (asn1_SyntaxError "trailing data")
  | _ => Err (asn1_SyntaxError "sequence expected")
  end.

(** A block: the tag [x43] for a certificate (any other tag for another type
    of block), the length of the bytes, the bytes. *)
Definition ex_DERCertToPEM (der : bytes) : bytes :=
  x43 :: default x00 (Byte.of_nat (length der)) :: der.

Definition ex_Decode (data : bytes) : option (pem_Block * nat) :=
  match data with
  | tag :: len :: body =>
    if (Byte.to_nat len <=? length body)%nat
    then Some (mk_pem_Block (if bool_decide (tag = x43) then "CERTIFICATE" else "OTHER")
                            [] (take (Byte.to_nat len) body),
               S (Byte.to_nat len))
    else None
  | _ => None
  end.

#[local] Instance exLib : GoLib := {|
  Entropy := nat;
  utils_NewECDSAKey := ex_NewECDSAKey;
  ecdsa_Sign := ex_Sign;
  x509_MarshalPKIXPublicKey := ex_MarshalPKIXPublicKey;
  proto_Marshal := ex_Marshal;
  utils_Hash := ex_Hash;
  big_MarshalText := ex_MarshalText;
  utils_DERToX509Certificate := ex_ParseCertificate;
  utils_DERCertToPEM := ex_DERCertToPEM;
  x509_ParseCertificate := ex_ParseCertificate;
  pem_Decode := ex_Decode
|}.


(** The same library with the three encoders failing: each returns no bytes
    and an error, as Go's do when they fail. *)
Definition failingLib : GoLib := {|
  Entropy := nat;
  utils_NewECDSAKey := ex_NewECDSAKey;
  ecdsa_Sign := ex_Sign;
  x509_MarshalPKIXPublicKey := fun _ => ([], Some (x509_Error "unsupported elliptic curve"));
  proto_Marshal := fun _ => ([], Some (proto_Error "marshal failed"));
  utils_Hash := ex_Hash;
  big_MarshalText := fun _ => ([], Some (text_Error "encoding failed"));
  utils_DERToX509Certificate := ex_ParseCertificate;
  utils_DERCertToPEM := ex_DERCertToPEM;
  x509_ParseCertificate := ex_ParseCertificate;
  pem_Decode := ex_Decode
|}.

(** Two certificates of the small library, and an enrollment certificate. *)
Definition exRootDER : bytes := [x30; x03; x0a; x0b; x0c].
Definition exSecondDER : bytes := [x30; x02; x0d; x0e].
Definition exECertDER : bytes := [x30; x02; x01; x02].

Definition exConf : configuration :=
  mkConfiguration "/var/openchain/eca.cert" "eca.example:50051".

Definition exNode : nodeImpl := mkNode exConf [].

(** An authority that answers every call. *)
Definition exECA : ECAServer :=
  mkECAServer (fun _ => None)
              (fun _ => Ok (mkCreds (Some (mkCert exECertDER)) []))
              (Ok (mkCert exRootDER))
              (fun _ => Ok (mkCert exRootDER)).

(** An authority whose certificate is not one: a single zero byte. *)
Definition garbageECA : ECAServer :=
  mkECAServer (fun _ => None)
              (fun _ => Ok (mkCreds (Some (mkCert exECertDER)) []))
              (Ok (mkCert [x00]))
              (fun _ => Ok (mkCert [x00])).

(** An authority that refuses to give its certificate: gRPC's code 7,
    PermissionDenied. *)
Definition refusingECA : ECAServer :=
  mkECAServer (fun _ => None)
              (fun _ => Err (grpc_rpcError 7 "permission denied"))
              (Err (grpc_rpcError 7 "permission denied"))
              (fun _ => Err (grpc_rpcError 7 "permission denied")).

Definition noFault : DiskPlan := mkDiskPlan None None None None.

(** The disk is full after five bytes (ENOSPC is 28). *)
Definition diskFull : DiskPlan :=
  mkDiskPlan None (Some (5%nat, Some (os_PathError "write" "/var/openchain/eca.cert" 28)))
             None None.

(** A world with no file, umask 022, the clock at 1455000000. *)
Definition exWorld : @World exLib :=
  mkWorld 1455000000 0%nat ∅ 0x12 noFault exECA [].

(** The same world for the library whose encoders fail. *)
Definition failingWorld : @World failingLib :=
  @mkWorld failingLib 1455000000 0%nat ∅ 0x12 noFault exECA [].

(** A world where the trust file is there already, readable by all
    (mode 0644). *)
Definition oldFile : File := mkFile [x6f; x6c; x64] 0x1a4.

Definition exWorld_oldFile : @World exLib :=
  set_files exWorld {[ "/var/openchain/eca.cert" := oldFile ]}.


(** A trust file with a block of another type and a certificate block whose
    bytes do not parse. *)
Definition exWorld_noCert : @World exLib :=
  set_files exWorld
    {[ "/var/openchain/eca.cert" := mkFile [x4b; x01; xaa; x43; x01; xbb] perm_0700 ]}.

(** ** More notions and worlds, for the properties beyond the specification *)

(** [ioutil.WriteFile] of [len] bytes runs to its end on this disk: the
    file opens, all the bytes are written without an error, the file
    closes. *)
Definition write_completes (d : DiskPlan) (len : nat) : Prop :=
  open_fails d = None
  /\ close_fails d = None
  /\ match write_stops d with
     | None => True
     | Some (n, e) => e = None /\ (len <= n)%nat
     end.

(** The world after a fetch that reached the authority. *)
Definition fetched `{GoLib} (node : nodeImpl) (w : World) : World :=
  emit (emit (emit w (EvDial (getECAPAddr (conf node)))) EvReadCACertificate) EvClose.

(** An authority that answers an enrollment with a key and no certificate. *)
Definition certlessECA : ECAServer :=
  mkECAServer (fun _ => None)
              (fun _ => Ok (mkCreds None [x01]))
              (Ok (mkCert exRootDER))
              (fun _ => Ok (mkCert exRootDER)).

(** An authority that cannot be dialed (gRPC's code 14, Unavailable). *)
Definition unreachableECA : ECAServer :=
  mkECAServer (fun _ => Some (grpc_rpcError 14 "connection refused"))
              (fun _ => Ok (mkCreds (Some (mkCert exECertDER)) []))
              (Ok (mkCert exRootDER))
              (fun _ => Ok (mkCert exRootDER)).

(** A trust file with a block of another type, a certificate block whose
    bytes do not parse, and the blocks of two certificates. *)
Definition exWorld_mixed : @World exLib :=
  set_files exWorld
    {[ "/var/openchain/eca.cert" :=
         mkFile ([x4b; x01; xaa; x43; x01; xbb]
                 ++ ex_DERCertToPEM exRootDER ++ ex_DERCertToPEM exSecondDER)
                perm_0700 ]}.

(** A file beside the trust file. *)
Definition exWorld_otherFile : @World exLib :=
  set_files exWorld {[ "/var/openchain/tca.cert" := oldFile ]}.




Definition exNode_withRoot : nodeImpl :=
  mkNode exConf [mk_x509_Certificate exRootDER].

(** Unfolds the monad and the effects of a run. *)
Ltac run :=
  unfold getEnrollmentCertificateFromECA, retrieveECACertsChain, loadECACertsChain,
    getECACertificate, callECACreateCertificate, callECAReadCACertificate,
    callECAReadCertificate, NewECDSAKey, Sign, time_Now_Unix, grpc_Dial,
    sockP_Close, ecaP_CreateCertificate, ecaP_ReadCACertificate,
    ecaP_ReadCertificate, ioutil_ReadFile, bind, ret in *;
  cbn [fst snd wire files now rand eca disk umask emit set_rand set_files] in *.


(** ** Properties *)

Section Properties.
Context `{GoLib} `{CALib}.

(** *** Fetching the certificate of the authority *)

(** What [callECAReadCACertificate] sends and returns, whatever its request. *)
Lemma callECAReadCACertificate_run (node : nodeImpl) (in_ : ECertReadReq) (w : World) :
  callECAReadCACertificate node in_ w =
  match eca_Dial (eca w) (getECAPAddr (conf node)) with
  | Some err => (Err err, emit w (EvDial (getECAPAddr (conf node))))
  | None =>
    (eca_ReadCACertificate (eca w),
     emit (emit (emit w (EvDial (getECAPAddr (conf node)))) EvReadCACertificate) EvClose)
  end.
Proof.
  run. destruct (eca_Dial (eca w) (getECAPAddr (conf node))); [reflexivity|].
  cbn. destruct (eca_ReadCACertificate (eca w)); reflexivity.
Qed.

Lemma getECACertificate_run (node : nodeImpl) (w : World) :
  getECACertificate node w =
  match eca_Dial (eca w) (getECAPAddr (conf node)) with
  | Some err => (Err err, emit w (EvDial (getECAPAddr (conf node))))
  | None =>
    (match eca_ReadCACertificate (eca w) with
     | Ok pbCert => Ok (Cert_Cert pbCert)
     | Err err => Err err
     end,
     emit (emit (emit w (EvDial (getECAPAddr (conf node)))) EvReadCACertificate) EvClose)
  end.
Proof.
  unfold getECACertificate, bind. rewrite callECAReadCACertificate_run.
  destruct (eca_Dial (eca w) (getECAPAddr (conf node))); [reflexivity|].
  destruct (eca_ReadCACertificate (eca w)); reflexivity.
Qed.

(** Fetching touches the network only: files, clock and entropy stay. *)
Lemma getECACertificate_frame (node : nodeImpl) (w : World) :
  let w' := snd (getECACertificate node w) in
  files w' = files w /\ umask w' = umask w /\ disk w' = disk w
  /\ now w' = now w /\ rand w' = rand w /\ eca w' = eca w.
Proof.
  rewrite getECACertificate_run.
  destruct (eca_Dial (eca w) (getECAPAddr (conf node))); cbn; auto 10.
Qed.

Lemma sent_emit1 (w : World) (a : NetEvent) : sent w (emit w a) = [a].
Proof. unfold sent, emit; cbn. apply drop_app_length. Qed.

Lemma sent_emit3 (w : World) (a b c : NetEvent) :
  sent w (emit (emit (emit w a) b) c) = [a; b; c].
Proof.
  unfold sent, emit; cbn. rewrite <- !app_assoc. apply drop_app_length.
Qed.

(** C6, as the code has it: the request [getECACertificate] prepares names
    the identity eca-root, and it is not sent. The node dials the address of
    the authority; when that fails the error of the dial is returned; when it
    succeeds the node calls ReadCACertificate with an empty message, closes
    the connection, and returns the certificate bytes of the answer or the
    error of the call, whatever that error is. No ReadCertificate request,
    the one call that carries an identity, is ever sent. *)
Theorem getECACertificate_sends_empty_message (node : nodeImpl) (w : World) :
  let r := fst (getECACertificate node w) in
  let w' := snd (getECACertificate node w) in
  let addr := getECAPAddr (conf node) in
  ECertReadReq_Id getECACertificate_req = Some (mkIdentity "eca-root")
  /\ (forall req, ~ In (EvReadCertificate req) (sent w w'))
  /\ match eca_Dial (eca w) addr with
     | Some err => sent w w' = [EvDial addr] /\ r = Err err
     | None =>
       sent w w' = [EvDial addr; EvReadCACertificate; EvClose]
       /\ r = match eca_ReadCACertificate (eca w) with
              | Ok pbCert => Ok (Cert_Cert pbCert)
              | Err err => Err err
              end
     end.
Proof.
  cbv zeta. rewrite getECACertificate_run.
  split; [reflexivity|].
  destruct (eca_Dial (eca w) (getECAPAddr (conf node))); cbn [fst snd].
  - rewrite sent_emit1. split; [|auto].
    intros req [Hin|[]]; discriminate.
  - rewrite sent_emit3. split; [|auto].
    intros req [Hin|[Hin|[Hin|[]]]]; discriminate.
Qed.

(** *** Enrollment *)

(** The request an attempt signs and sends, for the key and the signature
    it drew. *)
Lemma enrollment_run (node : nodeImpl) (id pw : string) (w : World) :
  let run := getEnrollmentCertificateFromECA node id pw w in
  match utils_NewECDSAKey (rand w) with
  | (Err err, e1) => run = (Returns (Err err), set_rand w e1)
  | (Ok priv, e1) =>
    let req0 := unsignedRequest (now w) id pw
                  (fst (x509_MarshalPKIXPublicKey (priv_PublicKey priv))) in
    match ecdsa_Sign e1 priv (utils_Hash (fst (proto_Marshal req0))) with
    | (Err err, e2) => run = (Returns (Err err), set_rand (set_rand w e1) e2)
    | (Ok (r, s), e2) =>
      let req := set_Sig req0 (Some (mkSignature CryptoType_ECDSA
                                       (fst (big_MarshalText r))
                                       (fst (big_MarshalText s)))) in
      let w2 := set_rand (set_rand w e1) e2 in
      let addr := getECAPAddr (conf node) in
      match eca_Dial (eca w) addr with
      | Some err => run = (Returns (Err err), emit w2 (EvDial addr))
      | None =>
        run = (match eca_CreateCertificate (eca w) req with
               | Err err => Returns (Err err)
               | Ok cred =>
                 match Creds_Cert cred with
                 | None => Panics
                 | Some pbCert => Returns (Ok (priv, Cert_Cert pbCert, Creds_Key cred))
                 end
               end,
               emit (emit (emit w2 (EvDial addr)) (EvCreateCertificate req)) EvClose)
      end
    end
  end.
Proof.
  cbv zeta. run.
  destruct (utils_NewECDSAKey (rand w)) as [[priv|err] e1]; cbn; [|reflexivity].
  destruct (ecdsa_Sign e1 priv _) as [[[r s]|err] e2]; cbn; [|reflexivity].
  destruct (eca_Dial (eca w) (getECAPAddr (conf node))) as [err|]; cbn; [reflexivity|].
  destruct (eca_CreateCertificate (eca w) _) as [[[c|] k]|err]; reflexivity.
Qed.

(** The enrollment requests among the events of a run: there is at most one,
    between the dial and the close, and it is the unsigned request of lines
    162 to 167 with the signature of line 169 attached. *)
Lemma enrollment_sent_request (node : nodeImpl) (id pw : string) (w : World)
    (req : ECertCreateReq) :
  In (EvCreateCertificate req)
     (sent w (snd (getEnrollmentCertificateFromECA node id pw w))) ->
  exists priv e1 r s e2,
    let req0 := unsignedRequest (now w) id pw
                  (fst (x509_MarshalPKIXPublicKey (priv_PublicKey priv))) in
    utils_NewECDSAKey (rand w) = (Ok priv, e1)
    /\ ecdsa_Sign e1 priv (utils_Hash (fst (proto_Marshal req0))) = (Ok (r, s), e2)
    /\ req = set_Sig req0 (Some (mkSignature CryptoType_ECDSA
                                   (fst (big_MarshalText r))
                                   (fst (big_MarshalText s)))).
Proof.
  pose proof (enrollment_run node id pw w) as Hrun. cbv zeta in Hrun.
  destruct (utils_NewECDSAKey (rand w)) as [[priv|err] e1] eqn:Hkey.
  2:{ rewrite Hrun. unfold sent. cbn. rewrite drop_all. intros []. }
  destruct (ecdsa_Sign e1 priv _) as [[[r s]|err] e2] eqn:Hsig.
  2:{ rewrite Hrun. unfold sent. cbn. rewrite drop_all. intros []. }
  destruct (eca_Dial (eca w) (getECAPAddr (conf node))) as [err|]; rewrite Hrun;
    unfold sent; cbn [snd wire emit set_rand].
  - rewrite drop_app_length. intros [Hin|[]]. discriminate.
  - rewrite <- !app_assoc, drop_app_length.
    intros [Hin|[Hin|[Hin|[]]]]; try discriminate.
    injection Hin as <-. exists priv, e1, r, s, e2. cbv zeta. auto.
Qed.

(** A run that returns a certificate has sent one enrollment request, on
    one connection. *)
Lemma enrollment_success_sends (node : nodeImpl) (id pw : string) (w : World)
    (priv : ecdsa_PrivateKey) (cert key : bytes) :
  fst (getEnrollmentCertificateFromECA node id pw w) = Returns (Ok (priv, cert, key)) ->
  exists req,
    sent w (snd (getEnrollmentCertificateFromECA node id pw w))
    = [EvDial (getECAPAddr (conf node)); EvCreateCertificate req; EvClose].
Proof.
  pose proof (enrollment_run node id pw w) as Hrun. cbv zeta in Hrun.
  destruct (utils_NewECDSAKey (rand w)) as [[priv'|err] e1];
    [|rewrite Hrun; discriminate].
  destruct (ecdsa_Sign e1 priv' _) as [[[r s]|err] e2];
    [|rewrite Hrun; discriminate].
  destruct (eca_Dial (eca w) (getECAPAddr (conf node))) as [err|];
    rewrite Hrun; [discriminate|]. cbn [fst snd].
  intros _. eexists. unfold sent. cbn [wire emit set_rand].
  rewrite <- !app_assoc. apply drop_app_length.
Qed.

(** C10: every enrollment request that a run of
    [getEnrollmentCertificateFromECA] sends carries a timestamp whose
    seconds are the clock's [time.Now().Unix()] and whose nanoseconds are
    zero; and a run that returns a certificate has sent such a request. *)
Theorem enrollment_timestamp_whole_seconds (node : nodeImpl) (id pw : string)
    (w : World) :
  let w' := snd (getEnrollmentCertificateFromECA node id pw w) in
  (forall req,
      In (EvCreateCertificate req) (sent w w') ->
      exists ts, ECertCreateReq_Ts req = Some ts
                 /\ Timestamp_Seconds ts = now w
                 /\ Timestamp_Nanos ts = 0)
  /\ (forall priv cert key,
        fst (getEnrollmentCertificateFromECA node id pw w)
        = Returns (Ok (priv, cert, key)) ->
        exists req,
          sent w w' = [EvDial (getECAPAddr (conf node)); EvCreateCertificate req; EvClose]).
Proof.
  cbv zeta. split.
  - intros req Hin.
    destruct (enrollment_sent_request _ _ _ _ _ Hin)
      as (priv & e1 & r & s & e2 & _ & _ & ->).
    eexists; cbn; eauto.
  - intros priv cert key Hok. exact (enrollment_success_sends _ _ _ _ _ _ _ Hok).
Qed.


(** C4, as the code has it: [getEnrollmentCertificateFromECA] returns an
    error exactly when key generation, signing, dialing or the call to the
    authority fails, and the error is the one of that step. The errors of the
    three encoders play no part: only the bytes they return are used. *)
Theorem enrollment_fails_only_on_checked_errors (node : nodeImpl) (id pw : string)
    (w : World) (err : error) :
  fst (getEnrollmentCertificateFromECA node id pw w) = Returns (Err err)
  <-> enrollment_error node id pw w = Some err.
Proof.
  unfold enrollment_error. run.
  destruct (utils_NewECDSAKey (rand w)) as [[priv|e] e1]; cbn.
  2:{ split; intros [= ->]; reflexivity. }
  destruct (ecdsa_Sign e1 priv _) as [[[r s]|e] e2]; cbn.
  2:{ split; intros [= ->]; reflexivity. }
  destruct (eca_Dial (eca w) (getECAPAddr (conf node))) as [e|]; cbn.
  { split; intros [= ->]; reflexivity. }
  destruct (eca_CreateCertificate (eca w) _) as [[[c|] k]|e]; cbn;
    split; intros Heq; try discriminate; injection Heq as ->; reflexivity.
Qed.

(** *** The trust chain *)

(** What [ioutil.WriteFile] leaves at the path and returns. *)
Lemma ioutil_WriteFile_run (filename : string) (data : bytes) (perm : Z) (w : World) :
  let err := fst (ioutil_WriteFile filename data perm w) in
  let w' := snd (ioutil_WriteFile filename data perm w) in
  (files w' = files w /\ err <> None /\ w' = w)
  \/ (exists n,
        (n <= length data)%nat
        /\ files w' =
           <[filename := mkFile (take n data)
                           match files w !! filename with
                           | Some old => file_mode old
                           | None => Z.ldiff perm (umask w)
                           end]> (files w)
        /\ (err = None -> n = length data)
        /\ disk w' = disk w /\ wire w' = wire w).
Proof.
  unfold ioutil_WriteFile.
  destruct (open_fails (disk w)) as [e|]; cbn [fst snd].
  { left. split; [reflexivity|]. split; [discriminate|reflexivity]. }
  right.
  destruct (write_stops (disk w)) as [[n [e|]]|]; cbn [fst snd files disk wire set_files].
  - exists (Nat.min n (length data)).
    split; [lia|]. split; [reflexivity|]. split; [discriminate|]. auto.
  - exists (Nat.min n (length data)).
    split; [lia|]. split; [reflexivity|]. split; [|auto].
    destruct (Nat.ltb_spec (Nat.min n (length data)) (length data));
      [discriminate|lia].
  - exists (length data). rewrite Nat.ltb_irrefl. auto.
Qed.

(** C7: when the bytes that were fetched do not parse as a certificate,
    [retrieveECACertsChain] returns the error of the parser and stops there:
    the world is as the fetch left it, and no file was written. *)
Theorem retrieve_stops_at_parse_error (node : nodeImpl) (userID : string)
    (w : World) (ecaCertRaw : bytes) (err : error) :
  fst (getECACertificate node w) = Ok ecaCertRaw ->
  utils_DERToX509Certificate ecaCertRaw = Err err ->
  retrieveECACertsChain node userID w = (Some err, snd (getECACertificate node w))
  /\ files (snd (retrieveECACertsChain node userID w)) = files w.
Proof.
  intros Hfetch Hparse.
  assert (Hrun : retrieveECACertsChain node userID w
                 = (Some err, snd (getECACertificate node w))).
  { unfold retrieveECACertsChain, bind.
    destruct (getECACertificate node w) as [r w1]; cbn in *. subst r.
    rewrite Hparse. reflexivity. }
  split; [exact Hrun|].
  rewrite Hrun. cbn. apply getECACertificate_frame.
Qed.

(** C5, as the code has it: [retrieveECACertsChain] writes the trust file in
    place. Either no file is touched and an error is returned (the fetch, the
    parse or the opening of the file failed), or the file at the trust path
    itself holds the first [n] bytes of the PEM encoding of the fetched
    certificate, all of them when no error is returned. *)
Theorem retrieve_writes_in_place (node : nodeImpl) (userID : string) (w : World) :
  let err := fst (retrieveECACertsChain node userID w) in
  let w' := snd (retrieveECACertsChain node userID w) in
  let path := getECACertsChainPath (conf node) in
  (files w' = files w /\ err <> None)
  \/ (exists ecaCertRaw n mode,
        fst (getECACertificate node w) = Ok ecaCertRaw
        /\ (n <= length (utils_DERCertToPEM ecaCertRaw))%nat
        /\ files w'
           = <[path := mkFile (take n (utils_DERCertToPEM ecaCertRaw)) mode]> (files w)
        /\ (err = None -> n = length (utils_DERCertToPEM ecaCertRaw))).
Proof.
  cbv zeta. unfold retrieveECACertsChain, bind.
  pose proof (getECACertificate_frame node w) as Hframe. cbv zeta in Hframe.
  destruct (getECACertificate node w) as [[raw|e] w1]; cbn [fst snd] in *.
  2:{ left. split; [apply Hframe|discriminate]. }
  destruct Hframe as (Hfiles & Humask & _).
  destruct (utils_DERToX509Certificate raw) as [c|e]; cbn [fst snd ret].
  2:{ left. split; [assumption|discriminate]. }
  pose proof (ioutil_WriteFile_run (getECACertsChainPath (conf node))
                (utils_DERCertToPEM raw) perm_0700 w1) as Hwrite.
  cbv zeta in Hwrite.
  destruct (ioutil_WriteFile _ _ _ w1) as [[e|] w2]; cbn [fst snd ret] in *.
  - destruct Hwrite as [(Hf & _ & _)|(n & Hn & Hf & _)].
    + left. split; [congruence|discriminate].
    + right. exists raw, n. eexists. rewrite Hf, Hfiles.
      repeat split; auto. discriminate.
  - destruct Hwrite as [(_ & Hne & _)|(n & Hn & Hf & Hall & _)]; [congruence|].
    right. exists raw, n. eexists. rewrite Hf, Hfiles. repeat split; auto.
Qed.

Lemma perm_0700_less_umask (u : Z) :
  Z.land (Z.ldiff perm_0700 u) group_other_bits = 0.
Proof.
  rewrite Z.ldiff_land, <- Z.land_assoc, (Z.land_comm (Z.lnot u)), Z.land_assoc.
  reflexivity.
Qed.

Lemma perm_0700_no_umask (u : Z) :
  Z.land u perm_0700 = 0 -> Z.ldiff perm_0700 u = perm_0700.
Proof.
  intros Hu. apply Z.bits_inj'. intros n Hn.
  rewrite Z.ldiff_spec.
  assert (Hbit : Z.testbit (Z.land u perm_0700) n = false) by (rewrite Hu; apply Z.bits_0).
  rewrite Z.land_spec in Hbit.
  destruct (Z.testbit perm_0700 n), (Z.testbit u n); cbn in *; congruence.
Qed.

(** C8, as the code has it: after a successful [retrieveECACertsChain] the
    trust file exists. When it was not there before, its mode is 0700 less
    the bits of the umask: no access for group and others, and exactly 0700
    when the umask clears none of the owner's bits. When it was there
    before, its mode is the one it had. *)
Theorem retrieve_file_mode (node : nodeImpl) (userID : string) (w : World) :
  fst (retrieveECACertsChain node userID w) = None ->
  let w' := snd (retrieveECACertsChain node userID w) in
  let path := getECACertsChainPath (conf node) in
  exists f,
    files w' !! path = Some f
    /\ file_mode f = match files w !! path with
                     | Some old => file_mode old
                     | None => Z.ldiff perm_0700 (umask w)
                     end
    /\ (files w !! path = None ->
        Z.land (file_mode f) group_other_bits = 0
        /\ (Z.land (umask w) perm_0700 = 0 -> file_mode f = perm_0700)).
Proof.
  cbv zeta. unfold retrieveECACertsChain, bind.
  pose proof (getECACertificate_frame node w) as Hframe. cbv zeta in Hframe.
  destruct (getECACertificate node w) as [[raw|e] w1]; cbn [fst snd ret] in *;
    [|discriminate].
  destruct Hframe as (Hfiles & Humask & _).
  destruct (utils_DERToX509Certificate raw) as [c|e]; cbn [fst snd ret];
    [|discriminate].
  pose proof (ioutil_WriteFile_run (getECACertsChainPath (conf node))
                (utils_DERCertToPEM raw) perm_0700 w1) as Hwrite.
  cbv zeta in Hwrite.
  destruct (ioutil_WriteFile _ _ _ w1) as [[e|] w2]; cbn [fst snd ret] in *;
    [discriminate|].
  intros _.
  destruct Hwrite as [(_ & Hne & _)|(n & Hn & Hf & Hall & _)]; [congruence|].
  rewrite Hf, Hfiles, Humask. eexists. rewrite lookup_insert_eq.
  split; [reflexivity|]. cbn [file_mode]. split; [reflexivity|].
  intros ->. split; [apply perm_0700_less_umask|apply perm_0700_no_umask].
Qed.
(** *** Loading the trust chain *)

Lemma AddCert_not_nil (s : CertPool) (cert : x509_Certificate) : AddCert s cert <> [].
Proof.
  unfold AddCert. destruct s as [|c s]; cbn; [discriminate|].
  destruct (Certificate_Equal c cert || existsb _ s); discriminate.
Qed.

Lemma fold_AddCert_not_nil (certs : list x509_Certificate) (s : CertPool) :
  s <> [] -> fold_left AddCert certs s <> [].
Proof.
  revert s. induction certs as [|c certs IH]; intros s Hs; cbn; [assumption|].
  apply IH, AddCert_not_nil.
Qed.

(** The loop of [AppendCertsFromPEM] adds, in order, the certificates of the
    blocks of the file, and sets [ok] when there is one. *)
Lemma appendCerts_blocks (fuel : nat) (s : CertPool) (pemCerts : bytes) (ok : bool) :
  appendCerts fuel s pemCerts ok =
  let certs := omap block_certificate (pem_blocks fuel pemCerts) in
  (fold_left AddCert certs s,
   ok || match certs with [] => false | _ :: _ => true end).
Proof.
  revert s pemCerts ok.
  induction fuel as [|fuel IH]; intros s pemCerts ok; cbn.
  { now rewrite orb_false_r. }
  destruct pemCerts as [|b rest]; cbn.
  { now rewrite orb_false_r. }
  destruct (pem_Decode (b :: rest)) as [[block k]|]; cbn.
  2:{ now rewrite orb_false_r. }
  unfold block_certificate.
  destruct (String.eqb (Block_Type block) "CERTIFICATE"); cbn.
  2:{ apply IH. }
  destruct (length (Block_Headers block) =? 0)%nat; cbn.
  2:{ apply IH. }
  destruct (x509_ParseCertificate (Block_Bytes block)) as [cert|e]; cbn.
  2:{ apply IH. }
  rewrite IH. cbn. f_equal. now rewrite orb_true_r.
Qed.

(** The fuel [AppendCertsFromPEM] gives is enough: more changes nothing. *)
Lemma pem_blocks_enough_fuel (fuel fuel' : nat) (data : bytes) :
  (length data <= fuel)%nat -> (length data <= fuel')%nat ->
  pem_blocks fuel data = pem_blocks fuel' data.
Proof.
  revert fuel' data.
  induction fuel as [|fuel IH]; intros fuel' data Hlen Hlen'.
  { destruct data; cbn in *; [|lia]. destruct fuel'; reflexivity. }
  destruct fuel' as [|fuel'].
  { destruct data; cbn in *; [reflexivity|lia]. }
  destruct data as [|b rest]; [reflexivity|].
  cbn [pem_blocks]. cbn [length] in *.
  destruct (pem_Decode (b :: rest)) as [[block k]|]; [|reflexivity].
  f_equal. apply IH; rewrite length_drop; cbn [length]; lia.
Qed.

Lemma appendCerts_enough_fuel (fuel : nat) (s : CertPool) (pemCerts : bytes) (ok : bool) :
  (length pemCerts <= fuel)%nat ->
  appendCerts fuel s pemCerts ok = appendCerts (length pemCerts) s pemCerts ok.
Proof.
  intros Hlen. rewrite !appendCerts_blocks.
  now rewrite (pem_blocks_enough_fuel fuel (length pemCerts) pemCerts Hlen).
Qed.

(** What [loadECACertsChain] does with a file that can be read. *)
Lemma loadECACertsChain_run (node : nodeImpl) (w : World) (f : File) :
  files w !! getECACertsChainPath (conf node) = Some f ->
  read_fails (disk w) = None ->
  loadECACertsChain node w =
  let certs := omap block_certificate (blocks_of (file_data f)) in
  match certs with
  | [] => (Some (errors_New "Failed appending ECA certificates chain."), node, w)
  | _ :: _ => (None, set_rootsCertPool node (fold_left AddCert certs (rootsCertPool node)), w)
  end.
Proof.
  intros Hfile Hread. run. rewrite Hread, Hfile.
  unfold AppendCertsFromPEM. rewrite appendCerts_blocks. cbv zeta.
  fold (blocks_of (file_data f)).
  destruct (omap block_certificate (blocks_of (file_data f))) as [|c certs]; cbn.
  - destruct node; reflexivity.
  - reflexivity.
Qed.

(** C3: a trust file that is empty, or none of whose blocks holds a
    certificate that parses, makes [loadECACertsChain] return the error
    Failed appending ECA certificates chain, with the pool left as it was;
    and whenever [loadECACertsChain] returns no error, the pool of the node
    is not empty. *)
Theorem load_fails_without_certificate (node : nodeImpl) (w : World) :
  (forall f,
      files w !! getECACertsChainPath (conf node) = Some f ->
      read_fails (disk w) = None ->
      file_data f = []
      \/ Forall (fun block => block_certificate block = None) (blocks_of (file_data f)) ->
      loadECACertsChain node w
      = (Some (errors_New "Failed appending ECA certificates chain."), node, w))
  /\ (fst (fst (loadECACertsChain node w)) = None ->
      rootsCertPool (snd (fst (loadECACertsChain node w))) <> []).
Proof.
  split.
  - intros f Hfile Hread Hnone.
    rewrite (loadECACertsChain_run _ _ _ Hfile Hread). cbv zeta.
    assert (Hcerts : omap block_certificate (blocks_of (file_data f)) = []).
    { destruct Hnone as [->|Hall]; [reflexivity|].
      induction Hall as [|block blocks Hb _ IH]; cbn; [reflexivity|].
      now rewrite Hb. }
    now rewrite Hcerts.
  - destruct (read_fails (disk w)) as [e|] eqn:Hread.
    { run. rewrite Hread. discriminate. }
    destruct (files w !! getECACertsChainPath (conf node)) as [f|] eqn:Hfile.
    2:{ run. rewrite Hread, Hfile. discriminate. }
    rewrite (loadECACertsChain_run _ _ _ Hfile Hread). cbv zeta.
    destruct (omap block_certificate (blocks_of (file_data f))) as [|c certs];
      cbn; [discriminate|].
    intros _. apply fold_AddCert_not_nil, AddCert_not_nil.
Qed.

(** Loading a trust file that holds the PEM encoding of one certificate. *)
Lemma load_one_block (node : nodeImpl) (w : World) (f : File) (C : bytes)
    (cert : x509_Certificate) :
  files w !! getECACertsChainPath (conf node) = Some f ->
  file_data f = utils_DERCertToPEM C ->
  read_fails (disk w) = None ->
  x509_ParseCertificate C = Ok cert ->
  pem_reads_back C ->
  loadECACertsChain node w
  = (None, set_rootsCertPool node (AddCert (rootsCertPool node) cert), w).
Proof.
  intros Hfile Hdata Hread Hparse (k & Hdecode & Hk).
  rewrite (loadECACertsChain_run _ _ _ Hfile Hread), Hdata.
  unfold blocks_of. rewrite <- Hk.
  destruct (utils_DERCertToPEM C) as [|b rest] eqn:Hpem; [discriminate|].
  cbn [pem_blocks]. rewrite Hdecode.
  rewrite (drop_ge (b :: rest)) by lia.
  assert (Hrest : pem_blocks k [] = []) by (destruct k; reflexivity).
  rewrite Hrest. cbn [omap list_omap]. unfold block_certificate at 1.
  cbn [Block_Type Block_Headers Block_Bytes length]. cbn.
  rewrite Hparse. reflexivity.
Qed.


(** The whole trust flow: when [retrieveECACertsChain] returns no error, for
    a certificate that [x509.ParseCertificate] accepts and whose PEM block
    reads back, [loadECACertsChain] then returns no error and the pool of
    the node gains that certificate. *)
Theorem retrieve_then_load (node : nodeImpl) (userID : string) (w : World)
    (ecaCertRaw : bytes) (cert : x509_Certificate) :
  fst (getECACertificate node w) = Ok ecaCertRaw ->
  x509_ParseCertificate ecaCertRaw = Ok cert ->
  pem_reads_back ecaCertRaw ->
  read_fails (disk w) = None ->
  let retrieved := retrieveECACertsChain node userID w in
  fst retrieved = None ->
  loadECACertsChain node (snd retrieved)
  = (None, set_rootsCertPool node (AddCert (rootsCertPool node) cert), snd retrieved).
Proof.
  intros Hfetch Hparse Hpem Hread. cbv zeta.
  unfold retrieveECACertsChain, bind.
  pose proof (getECACertificate_frame node w) as Hframe. cbv zeta in Hframe.
  destruct (getECACertificate node w) as [r w1]; cbn [fst snd] in *. subst r.
  destruct Hframe as (_ & _ & Hdisk & _).
  destruct (utils_DERToX509Certificate ecaCertRaw) as [c|e]; cbn [fst snd ret];
    [|discriminate].
  pose proof (ioutil_WriteFile_run (getECACertsChainPath (conf node))
                (utils_DERCertToPEM ecaCertRaw) perm_0700 w1) as Hwrite.
  cbv zeta in Hwrite.
  destruct (ioutil_WriteFile _ _ _ w1) as [[e|] w2]; cbn [fst snd ret] in *;
    [discriminate|].
  intros _.
  destruct Hwrite as [(_ & Hne & _)|(n & _ & Hfiles & Hall & Hdisk2 & _)]; [congruence|].
  rewrite (Hall eq_refl), firstn_all in Hfiles.
  eapply load_one_block; eauto.
  - rewrite Hfiles. apply lookup_insert_eq.
  - reflexivity.
  - congruence.
Qed.

(** *** One key per attempt *)

(** The key a successful attempt returns is the one [utils.NewECDSAKey] made
    from the entropy the attempt started with; the attempt leaves the
    entropy as key generation and signing left it, and that is where the
    next attempt draws its key from. The node keeps no key between calls. *)
Theorem enrollment_key_drawn_per_call (node : nodeImpl) (id pw : string) (w : World)
    (priv : ecdsa_PrivateKey) (cert key : bytes) :
  fst (getEnrollmentCertificateFromECA node id pw w) = Returns (Ok (priv, cert, key)) ->
  exists e1 r s e2,
    utils_NewECDSAKey (rand w) = (Ok priv, e1)
    /\ ecdsa_Sign e1 priv
         (utils_Hash (fst (proto_Marshal
            (unsignedRequest (now w) id pw
               (fst (x509_MarshalPKIXPublicKey (priv_PublicKey priv)))))))
       = (Ok (r, s), e2)
    /\ rand (snd (getEnrollmentCertificateFromECA node id pw w)) = e2.
Proof.
  run. destruct (utils_NewECDSAKey (rand w)) as [[priv'|e] e1]; cbn; [|discriminate].
  destruct (ecdsa_Sign e1 priv' _) as [[[r s]|e] e2] eqn:Hsig; cbn; [|discriminate].
  destruct (eca_Dial (eca w) (getECAPAddr (conf node))) as [e|]; cbn; [discriminate|].
  destruct (eca_CreateCertificate (eca w) _) as [[[c|] k]|e]; cbn;
    try discriminate.
  intros [= -> _ _]. exists e1, r, s, e2. auto.
Qed.
End Properties.

(** ** The code run on the small library *)





(** C10 at work: the attempt for alice in [exWorld], where the clock shows
    1455000000, sends one request; it carries that second and no
    nanosecond. *)
Lemma enrollment_timestamp_example :
  exists req ts,
    sent exWorld (snd (getEnrollmentCertificateFromECA exNode "alice" "pw123" exWorld))
    = [EvDial "eca.example:50051"; EvCreateCertificate req; EvClose]
    /\ ECertCreateReq_Ts req = Some ts
    /\ Timestamp_Seconds ts = 1455000000
    /\ Timestamp_Nanos ts = 0.
Proof.
  destruct (enrollment_timestamp_whole_seconds exNode "alice" "pw123" exWorld)
    as (Hts & Hsends).
  destruct (Hsends _ _ _ eq_refl) as (req & Hsent).
  destruct (Hts req) as (ts & Hreq); [rewrite Hsent; right; left; reflexivity|].
  exists req, ts. split; [exact Hsent|exact Hreq].
Defined.

(** C4 refuted as stated: with a library whose three encoders all fail,
    [getEnrollmentCertificateFromECA] still returns the key and the
    certificate, and no error. *)
Lemma encoder_errors_are_dropped :
  let priv := mk_ecdsa_PrivateKey (mk_ecdsa_PublicKey P384 8 8) 1 in
  let req0 := @unsignedRequest 1455000000 "alice" "pw123" [] in
  @x509_MarshalPKIXPublicKey failingLib (priv_PublicKey priv)
  = ([], Some (x509_Error "unsupported elliptic curve"))
  /\ @proto_Marshal failingLib req0 = ([], Some (proto_Error "marshal failed"))
  /\ @big_MarshalText failingLib 2 = ([], Some (text_Error "encoding failed"))
  /\ fst (@getEnrollmentCertificateFromECA failingLib exNode "alice" "pw123" failingWorld)
     = Returns (Ok (priv, exECertDER, [])).
Proof. vm_compute. repeat split. Qed.

(** C6 refuted as stated: the identity of the prepared request is eca-root,
    not ca-root; what is sent carries no identity at all; and an error of
    the authority that is neither a connection error nor a not-found error
    (gRPC's code 7, permission denied) is returned as it is. *)
Lemma getECACertificate_not_ca_root :
  ECertReadReq_Id getECACertificate_req <> Some (mkIdentity "ca-root")
  /\ sent exWorld (snd (getECACertificate exNode exWorld))
     = [EvDial "eca.example:50051"; EvReadCACertificate; EvClose]
  /\ fst (getECACertificate exNode (set_eca exWorld refusingECA))
     = Err (grpc_rpcError 7 "permission denied").
Proof.
  split; [discriminate|]. split; reflexivity.
Qed.

(** C7 at work: an authority that answers one zero byte. *)
Lemma retrieve_stops_at_parse_error_example :
  let w := set_eca exWorld garbageECA in
  retrieveECACertsChain exNode "validator" w
  = (Some (asn1_SyntaxError "sequence expected"), snd (getECACertificate exNode w))
  /\ files (snd (retrieveECACertsChain exNode "validator" w)) = files w.
Proof.
  exact (retrieve_stops_at_parse_error exNode "validator"
           (set_eca exWorld garbageECA) [x00]
           (asn1_SyntaxError "sequence expected") eq_refl eq_refl).
Defined.

(** C5 refuted as stated: the disk is full after five bytes. The call
    returns the error of the write, and the trust path, where there was no
    file, now holds the first five of the seven bytes of the PEM encoding. *)
Lemma retrieve_leaves_partial_file :
  let w := set_disk exWorld diskFull in
  let w' := snd (retrieveECACertsChain exNode "validator" w) in
  files w !! "/var/openchain/eca.cert" = None
  /\ utils_DERCertToPEM exRootDER = [x43; x05; x30; x03; x0a; x0b; x0c]
  /\ fst (retrieveECACertsChain exNode "validator" w)
     = Some (os_PathError "write" "/var/openchain/eca.cert" 28)
  /\ files w' !! "/var/openchain/eca.cert"
     = Some (mkFile [x43; x05; x30; x03; x0a] perm_0700).
Proof. vm_compute. repeat split. Qed.

(** C8 refuted as stated: the trust file is there already with mode 0644.
    [retrieveECACertsChain] succeeds and replaces its contents; its mode is
    still 0644, which lets group and others read it. *)
Lemma retrieve_keeps_mode_of_old_file :
  let w' := snd (retrieveECACertsChain exNode "validator" exWorld_oldFile) in
  files exWorld_oldFile !! "/var/openchain/eca.cert" = Some (mkFile [x6f; x6c; x64] 0x1a4)
  /\ fst (retrieveECACertsChain exNode "validator" exWorld_oldFile) = None
  /\ files w' !! "/var/openchain/eca.cert"
     = Some (mkFile [x43; x05; x30; x03; x0a; x0b; x0c] 0x1a4)
  /\ Z.land 0x1a4 group_other_bits = 0x24.
Proof. vm_compute. repeat split. Qed.

(** C8 at work: in [exWorld] there is no trust file and the umask is 022;
    the file is made with mode 0700. *)
Lemma retrieve_file_mode_example :
  exists f,
    files (snd (retrieveECACertsChain exNode "validator" exWorld))
      !! "/var/openchain/eca.cert" = Some f
    /\ file_mode f = perm_0700.
Proof.
  destruct (retrieve_file_mode exNode "validator" exWorld eq_refl)
    as (f & Hf & _ & Hfresh).
  exists f. split; [exact Hf|].
  exact (proj2 (Hfresh eq_refl) eq_refl).
Defined.



(** C3 at work: the file of [exWorld_noCert] has two blocks and no
    certificate. *)
Lemma load_fails_without_certificate_example :
  loadECACertsChain exNode exWorld_noCert
  = (Some (errors_New "Failed appending ECA certificates chain."), exNode, exWorld_noCert).
Proof.
  refine (proj1 (load_fails_without_certificate exNode exWorld_noCert)
                (mkFile [x4b; x01; xaa; x43; x01; xbb] perm_0700) eq_refl eq_refl _).
  right. vm_compute. repeat constructor.
Defined.

(** One key per attempt, at work: two attempts for alice, one after the
    other; the second draws its key where the first left the entropy. *)
Lemma enrollment_key_drawn_per_call_example :
  exists e1 r s e2,
    ex_NewECDSAKey 0 = (Ok (mk_ecdsa_PrivateKey (mk_ecdsa_PublicKey P384 8 8) 1), e1)
    /\ ex_Sign e1 (mk_ecdsa_PrivateKey (mk_ecdsa_PublicKey P384 8 8) 1)
         (ex_Hash (fst (ex_Marshal (unsignedRequest 1455000000 "alice" "pw123" (decimal 8)))))
       = (Ok (r, s), e2)
    /\ rand (snd (getEnrollmentCertificateFromECA exNode "alice" "pw123" exWorld)) = e2.
Proof.
  exact (enrollment_key_drawn_per_call exNode "alice" "pw123" exWorld
           (mk_ecdsa_PrivateKey (mk_ecdsa_PublicKey P384 8 8) 1) exECertDER []
           eq_refl).
Defined.

(** The whole trust flow at work in [exWorld]. *)
Lemma retrieve_then_load_example :
  let retrieved := retrieveECACertsChain exNode "validator" exWorld in
  loadECACertsChain exNode (snd retrieved)
  = (None, mkNode exConf [mk_x509_Certificate exRootDER], snd retrieved).
Proof.
  refine (retrieve_then_load exNode "validator" exWorld exRootDER
            (mk_x509_Certificate exRootDER) eq_refl eq_refl _ eq_refl eq_refl).
  exists 6%nat. split; reflexivity.
Defined.

(** ** More of what the code does *)

Section Pool.
Context `{GoLib}.

(** *** The pool of root certificates *)

Lemma Certificate_Equal_eq (c d : x509_Certificate) :
  Certificate_Equal c d = true <-> c = d.
Proof.
  unfold Certificate_Equal. rewrite bool_decide_eq_true.
  destruct c, d; cbn. split; congruence.
Qed.

Lemma existsb_Certificate_Equal (s : CertPool) (cert : x509_Certificate) :
  existsb (fun c => Certificate_Equal c cert) s = true <-> In cert s.
Proof.
  rewrite existsb_exists. split.
  - intros (c & Hin & Heq). apply Certificate_Equal_eq in Heq. now subst.
  - intros Hin. exists cert. split; [assumption|]. now apply Certificate_Equal_eq.
Qed.

Lemma In_AddCert (s : CertPool) (cert c : x509_Certificate) :
  In c (AddCert s cert) <-> In c s \/ c = cert.
Proof.
  unfold AddCert.
  destruct (existsb _ s) eqn:Hex.
  - apply existsb_Certificate_Equal in Hex. split; [auto|].
    intros [Hin| ->]; assumption.
  - rewrite in_app_iff. cbn. intuition (subst; auto).
Qed.

Lemma In_fold_AddCert (certs : list x509_Certificate) (s : CertPool) (c : x509_Certificate) :
  In c (fold_left AddCert certs s) <-> In c s \/ In c certs.
Proof.
  revert s. induction certs as [|d certs IH]; intros s; cbn.
  - tauto.
  - rewrite IH, In_AddCert. split; intros Hin; intuition (subst; auto).
Qed.

Lemma AddCert_present (s : CertPool) (cert : x509_Certificate) :
  In cert s -> AddCert s cert = s.
Proof.
  intros Hin. unfold AddCert.
  apply existsb_Certificate_Equal in Hin. now rewrite Hin.
Qed.

Lemma fold_AddCert_present (certs : list x509_Certificate) (s : CertPool) :
  (forall c, In c certs -> In c s) -> fold_left AddCert certs s = s.
Proof.
  induction certs as [|d certs IH]; intros Hall; cbn; [reflexivity|].
  rewrite AddCert_present by (apply Hall; now left).
  apply IH. intros c Hc. apply Hall. now right.
Qed.

Lemma NoDup_AddCert (s : CertPool) (cert : x509_Certificate) :
  List.NoDup s -> List.NoDup (AddCert s cert).
Proof.
  intros Hs. unfold AddCert.
  destruct (existsb _ s) eqn:Hex; [assumption|].
  apply List.NoDup_app; [assumption|repeat constructor; intros []|].
  intros c Hc [<-|[]].
  apply existsb_Certificate_Equal in Hc. congruence.
Qed.

Lemma NoDup_fold_AddCert (certs : list x509_Certificate) (s : CertPool) :
  List.NoDup s -> List.NoDup (fold_left AddCert certs s).
Proof.
  revert s. induction certs as [|d certs IH]; intros s Hs; cbn; [assumption|].
  apply IH, NoDup_AddCert, Hs.
Qed.

(** *** Loading, for any file *)

(** What [loadECACertsChain] returns, whether or not the file can be read. *)
Lemma loadECACertsChain_cases (node : nodeImpl) (w : World) :
  (exists err, loadECACertsChain node w = (Some err, node, w))
  \/ (exists f certs,
        files w !! getECACertsChainPath (conf node) = Some f
        /\ read_fails (disk w) = None
        /\ certs = omap block_certificate (blocks_of (file_data f))
        /\ certs <> []
        /\ loadECACertsChain node w
           = (None, set_rootsCertPool node (fold_left AddCert certs (rootsCertPool node)), w)).
Proof.
  destruct (read_fails (disk w)) as [e|] eqn:Hread.
  { left. exists e. run. now rewrite Hread. }
  destruct (files w !! getECACertsChainPath (conf node)) as [f|] eqn:Hfile.
  2:{ left. eexists. run. rewrite Hread, Hfile. reflexivity. }
  rewrite (loadECACertsChain_run _ _ _ Hfile Hread). cbv zeta.
  destruct (omap block_certificate (blocks_of (file_data f))) as [|c certs] eqn:Hcerts.
  - left. eexists. reflexivity.
  - right. exists f, (c :: certs). rewrite Hcerts.
    split; [reflexivity|]. split; [reflexivity|]. split; [reflexivity|].
    split; [discriminate|reflexivity].
Qed.

(** Loading reads: it leaves the world as it is and the configuration of
    the node as it is, it removes no certificate from the pool, and when it
    returns an error the node is unchanged. *)
Theorem load_only_adds_to_pool (node : nodeImpl) (w : World) :
  let res := loadECACertsChain node w in
  snd res = w
  /\ conf (snd (fst res)) = conf node
  /\ (forall c, In c (rootsCertPool node) -> In c (rootsCertPool (snd (fst res))))
  /\ (fst (fst res) <> None -> snd (fst res) = node).
Proof.
  cbv zeta.
  destruct (loadECACertsChain_cases node w)
    as [(err & ->)|(f & certs & _ & _ & _ & _ & ->)]; cbn.
  - auto.
  - repeat split; auto; [|congruence].
    intros c Hc. apply In_fold_AddCert. now left.
Qed.

(** A file that can be read is loaded block by block: the load succeeds
    exactly when some block holds a certificate, the blocks that hold none
    are passed over, and the pool afterwards holds the certificates it had
    and those of the blocks, and no other. *)
Theorem load_collects_block_certificates (node : nodeImpl) (w : World) (f : File) :
  files w !! getECACertsChainPath (conf node) = Some f ->
  read_fails (disk w) = None ->
  let res := loadECACertsChain node w in
  (fst (fst res) = None
   <-> exists block, In block (blocks_of (file_data f)) /\ block_certificate block <> None)
  /\ (forall c,
        In c (rootsCertPool (snd (fst res)))
        <-> In c (rootsCertPool node)
            \/ exists block, In block (blocks_of (file_data f))
                             /\ block_certificate block = Some c).
Proof.
  intros Hfile Hread. cbv zeta.
  rewrite (loadECACertsChain_run _ _ _ Hfile Hread). cbv zeta.
  assert (Hin : forall c, In c (omap block_certificate (blocks_of (file_data f)))
                          <-> exists block, In block (blocks_of (file_data f))
                                            /\ block_certificate block = Some c).
  { intros c. rewrite <- list_elem_of_In, list_elem_of_omap.
    split; intros (block & Hb & Hc); exists block;
      [rewrite <- list_elem_of_In|rewrite list_elem_of_In]; auto. }
  destruct (omap block_certificate (blocks_of (file_data f))) as [|c0 certs] eqn:Hcerts;
    cbn [fst snd rootsCertPool set_rootsCertPool].
  - split.
    + split; [discriminate|].
      intros (block & Hb & Hsome).
      destruct (block_certificate block) as [c|] eqn:Hc; [|congruence].
      destruct (proj2 (Hin c)); eauto.
    + intros c. split; [auto|].
      intros [Hold|Hnew]; [assumption|]. destruct (proj2 (Hin c) Hnew).
  - split.
    + split; [|reflexivity]. intros _.
      destruct (proj1 (Hin c0)) as (block & Hb & Hc); [now left|].
      exists block. split; [assumption|congruence].
    + intros c. change (fold_left AddCert certs (AddCert (rootsCertPool node) c0))
        with (fold_left AddCert (c0 :: certs) (rootsCertPool node)).
      rewrite In_fold_AddCert, Hin. reflexivity.
Qed.

(** Loading twice is loading once: a second load of the same file returns
    what the first returned and leaves the pool as the first left it. *)
Theorem load_twice (node : nodeImpl) (w : World) :
  let res := loadECACertsChain node w in
  loadECACertsChain (snd (fst res)) (snd res) = res.
Proof.
  cbv zeta.
  destruct (loadECACertsChain_cases node w)
    as [(err & Hrun)|(f & certs & Hfile & Hread & Hcerts & Hne & Hrun)].
  - rewrite Hrun. cbn. exact Hrun.
  - rewrite Hrun. cbn [fst snd].
    rewrite (loadECACertsChain_run (set_rootsCertPool node _) w f Hfile Hread).
    cbv zeta. rewrite <- Hcerts.
    assert (Hfix : fold_left AddCert certs (fold_left AddCert certs (rootsCertPool node))
                   = fold_left AddCert certs (rootsCertPool node)).
    { apply fold_AddCert_present. intros d Hd. apply In_fold_AddCert. now right. }
    destruct certs as [|c certs]; [congruence|].
    unfold set_rootsCertPool. cbn [rootsCertPool conf].
    now rewrite Hfix.
Qed.

(** A pool without a certificate twice stays so through a load. *)
Theorem load_keeps_pool_without_duplicates (node : nodeImpl) (w : World) :
  List.NoDup (rootsCertPool node) ->
  List.NoDup (rootsCertPool (snd (fst (loadECACertsChain node w)))).
Proof.
  intros Hs.
  destruct (loadECACertsChain_cases node w)
    as [(err & ->)|(f & certs & _ & _ & _ & _ & ->)]; cbn; [assumption|].
  now apply NoDup_fold_AddCert.
Qed.
End Pool.

Section Flows.
Context `{GoLib}.

(** *** Retrieving the certificate of the authority *)

Lemma write_completes_run (filename : string) (data : bytes) (perm : Z) (w : World) :
  write_completes (disk w) (length data) ->
  ioutil_WriteFile filename data perm w
  = (None,
     set_files w (<[filename := mkFile data
                                  match files w !! filename with
                                  | Some old => file_mode old
                                  | None => Z.ldiff perm (umask w)
                                  end]> (files w))).
Proof.
  intros (Hopen & Hclose & Hwrite). unfold ioutil_WriteFile. rewrite Hopen.
  destruct (write_stops (disk w)) as [[n e]|].
  - destruct Hwrite as [-> Hn]. rewrite Nat.min_r by assumption.
    rewrite Nat.ltb_irrefl, Hclose, firstn_all. reflexivity.
  - rewrite Nat.ltb_irrefl, Hclose, firstn_all. reflexivity.
Qed.

Lemma write_returns_none (filename : string) (data : bytes) (perm : Z) (w : World) :
  fst (ioutil_WriteFile filename data perm w) = None ->
  write_completes (disk w) (length data).
Proof.
  unfold ioutil_WriteFile, write_completes.
  destruct (open_fails (disk w)) as [e|]; cbn [fst]; [discriminate|].
  destruct (write_stops (disk w)) as [[n [e|]]|]; cbn [fst]; [discriminate| |].
  - destruct (Nat.ltb_spec (Nat.min n (length data)) (length data)); [discriminate|].
    destruct (close_fails (disk w)); [discriminate|].
    intros _. repeat split; auto. lia.
  - rewrite Nat.ltb_irrefl. destruct (close_fails (disk w)); [discriminate|]. auto.
Qed.

(** The run of a [retrieveECACertsChain] whose every step succeeds. *)
Lemma retrieve_ok_run (node : nodeImpl) (userID : string) (w : World)
    (pbCert : Cert) (cert : x509_Certificate) :
  eca_Dial (eca w) (getECAPAddr (conf node)) = None ->
  eca_ReadCACertificate (eca w) = Ok pbCert ->
  utils_DERToX509Certificate (Cert_Cert pbCert) = Ok cert ->
  write_completes (disk w) (length (utils_DERCertToPEM (Cert_Cert pbCert))) ->
  retrieveECACertsChain node userID w
  = (None,
     set_files (fetched node w)
       (<[getECACertsChainPath (conf node)
          := mkFile (utils_DERCertToPEM (Cert_Cert pbCert))
               match files w !! getECACertsChainPath (conf node) with
               | Some old => file_mode old
               | None => Z.ldiff perm_0700 (umask w)
               end]> (files w))).
Proof.
  intros Hdial Hread Hparse Hwrite.
  unfold retrieveECACertsChain, bind. rewrite getECACertificate_run, Hdial, Hread, Hparse.
  rewrite write_completes_run by exact Hwrite. reflexivity.
Qed.

(** What made a [retrieveECACertsChain] succeed. *)
Lemma retrieve_ok_conditions (node : nodeImpl) (userID : string) (w : World) :
  fst (retrieveECACertsChain node userID w) = None ->
  eca_Dial (eca w) (getECAPAddr (conf node)) = None
  /\ exists pbCert cert,
       eca_ReadCACertificate (eca w) = Ok pbCert
       /\ utils_DERToX509Certificate (Cert_Cert pbCert) = Ok cert
       /\ write_completes (disk w) (length (utils_DERCertToPEM (Cert_Cert pbCert))).
Proof.
  unfold retrieveECACertsChain, bind. rewrite getECACertificate_run.
  destruct (eca_Dial (eca w) (getECAPAddr (conf node))) as [e|]; [discriminate|].
  destruct (eca_ReadCACertificate (eca w)) as [pbCert|e]; [|discriminate].
  destruct (utils_DERToX509Certificate (Cert_Cert pbCert)) as [cert|e] eqn:Hparse;
    [|discriminate].
  intros Hok. split; [reflexivity|]. exists pbCert, cert.
  split; [reflexivity|]. split; [assumption|].
  match type of Hok with
  | fst (let (_, _) := ?wr in _) = None =>
    destruct wr as [[e|] w2] eqn:Hwr; [discriminate|]
  end.
  apply (write_returns_none _ _ _ _ (f_equal fst Hwr)).
Qed.

(** [retrieveECACertsChain] returns no error exactly when the authority can
    be dialed, answers the call, its answer parses as a certificate, and the
    write of the trust file runs to its end. The certificate is checked
    against nothing else: whatever parses is stored. *)
Theorem retrieve_succeeds_iff (node : nodeImpl) (userID : string) (w : World) :
  fst (retrieveECACertsChain node userID w) = None
  <-> eca_Dial (eca w) (getECAPAddr (conf node)) = None
      /\ exists pbCert cert,
           eca_ReadCACertificate (eca w) = Ok pbCert
           /\ utils_DERToX509Certificate (Cert_Cert pbCert) = Ok cert
           /\ write_completes (disk w) (length (utils_DERCertToPEM (Cert_Cert pbCert))).
Proof.
  split; [apply retrieve_ok_conditions|].
  intros (Hdial & pbCert & cert & Hread & Hparse & Hwrite).
  now rewrite (retrieve_ok_run node userID w pbCert cert Hdial Hread Hparse Hwrite).
Qed.

(** No run of [retrieveECACertsChain] touches a file other than the trust
    file; a run that returns no error leaves in the trust file the PEM
    encoding of the bytes the authority answered, in place of what the file
    held. *)
Theorem retrieve_persists_fetched_certificate (node : nodeImpl) (userID : string)
    (w : World) :
  let w' := snd (retrieveECACertsChain node userID w) in
  let path := getECACertsChainPath (conf node) in
  (forall p, p <> path -> files w' !! p = files w !! p)
  /\ (fst (retrieveECACertsChain node userID w) = None ->
      exists pbCert f,
        eca_ReadCACertificate (eca w) = Ok pbCert
        /\ files w' !! path = Some f
        /\ file_data f = utils_DERCertToPEM (Cert_Cert pbCert)).
Proof.
  cbv zeta. split.
  - intros p Hp. unfold retrieveECACertsChain, bind.
    pose proof (getECACertificate_frame node w) as Hframe. cbv zeta in Hframe.
    destruct (getECACertificate node w) as [[raw|e] w1]; cbn [fst snd] in *;
      [|unfold ret; cbn [snd]; now rewrite (proj1 Hframe)].
    destruct Hframe as (Hfiles & _).
    destruct (utils_DERToX509Certificate raw) as [c|e];
      [|unfold ret; cbn [snd]; now rewrite Hfiles].
    pose proof (ioutil_WriteFile_run (getECACertsChainPath (conf node))
                  (utils_DERCertToPEM raw) perm_0700 w1) as Hwrite.
    cbv zeta in Hwrite.
    assert (Hw : files (snd (ioutil_WriteFile (getECACertsChainPath (conf node))
                               (utils_DERCertToPEM raw) perm_0700 w1)) !! p
                 = files w !! p).
    { destruct Hwrite as [(Hf & _)|(n & _ & Hf & _)]; rewrite Hf.
      - now rewrite Hfiles.
      - rewrite lookup_insert_ne by congruence. now rewrite Hfiles. }
    destruct (ioutil_WriteFile _ _ _ w1) as [[e|] w2]; exact Hw.
  - intros Hok.
    destruct (retrieve_ok_conditions node userID w Hok)
      as (Hdial & pbCert & cert & Hread & Hparse & Hwrite).
    rewrite (retrieve_ok_run node userID w pbCert cert Hdial Hread Hparse Hwrite).
    exists pbCert. eexists. split; [assumption|]. cbn [snd files set_files].
    rewrite lookup_insert_eq. split; reflexivity.
Qed.

(** Retrieving again changes nothing on disk: when a run returned no error
    and a second run, against the same authority, returns no error either,
    the second leaves every file as the first left it, the trust file with
    the contents and the mode it had. *)
Theorem retrieve_twice_same_files (node : nodeImpl) (userID userID' : string)
    (w : World) :
  fst (retrieveECACertsChain node userID w) = None ->
  let w1 := snd (retrieveECACertsChain node userID w) in
  fst (retrieveECACertsChain node userID' w1) = None ->
  files (snd (retrieveECACertsChain node userID' w1)) = files w1.
Proof.
  intros Hok. cbv zeta.
  destruct (retrieve_ok_conditions node userID w Hok)
    as (Hdial & pbCert & cert & Hread & Hparse & Hwrite).
  rewrite (retrieve_ok_run node userID w pbCert cert Hdial Hread Hparse Hwrite).
  cbn [snd]. intros Hok'.
  destruct (retrieve_ok_conditions node userID' _ Hok')
    as (Hdial' & pbCert' & cert' & Hread' & Hparse' & Hwrite').
  cbn [eca set_files fetched emit] in Hread'.
  assert (pbCert' = pbCert) by congruence. subst pbCert'.
  rewrite (retrieve_ok_run node userID' _ pbCert cert' Hdial' Hread' Hparse' Hwrite').
  cbn [fst snd files set_files fetched emit umask].
  rewrite lookup_insert_eq. cbn [file_mode]. apply insert_insert_eq.
Qed.

(** When the fetch fails, [retrieveECACertsChain] returns the error of the
    fetch and stops there: nothing is parsed and no file is written. *)
Theorem retrieve_stops_at_fetch_error (node : nodeImpl) (userID : string)
    (w : World) (err : error) :
  fst (getECACertificate node w) = Err err ->
  retrieveECACertsChain node userID w = (Some err, snd (getECACertificate node w))
  /\ files (snd (retrieveECACertsChain node userID w)) = files w.
Proof.
  intros Hfetch.
  assert (Hrun : retrieveECACertsChain node userID w
                 = (Some err, snd (getECACertificate node w))).
  { unfold retrieveECACertsChain, bind.
    destruct (getECACertificate node w) as [r w1]; cbn in *. now subst r. }
  split; [exact Hrun|].
  rewrite Hrun. cbn. apply getECACertificate_frame.
Qed.
End Flows.

Section Calls.
Context `{GoLib}.

(** *** The calls to the authority *)

(** [callECAReadCertificate] dials the address of the configuration. When
    the dial fails it returns the error of the dial and nothing else goes on
    the wire. Otherwise it sends the request it was given, as it was given,
    closes the connection whether or not the call failed, and returns the
    answer or the error of the call. It touches no file. *)
Theorem callECAReadCertificate_forwards (node : nodeImpl) (in_ : ECertReadReq)
    (w : World) :
  let r := fst (callECAReadCertificate node in_ w) in
  let w' := snd (callECAReadCertificate node in_ w) in
  let addr := getECAPAddr (conf node) in
  files w' = files w
  /\ match eca_Dial (eca w) addr with
     | Some err => r = Err err /\ sent w w' = [EvDial addr]
     | None =>
       r = eca_ReadCertificate (eca w) in_
       /\ sent w w' = [EvDial addr; EvReadCertificate in_; EvClose]
     end.
Proof.
  cbv zeta. run.
  destruct (eca_Dial (eca w) (getECAPAddr (conf node))) as [e|]; cbn.
  - split; [reflexivity|]. split; [reflexivity|]. apply (sent_emit1 w).
  - destruct (eca_ReadCertificate (eca w) in_) as [cert|e]; cbn;
      (split; [reflexivity|]; split; [reflexivity|]);
      apply (sent_emit3 w).
Qed.

(** [callECACreateCertificate] does the same with an enrollment request, and
    returns the two fields of the answer. *)
Theorem callECACreateCertificate_forwards (node : nodeImpl) (in_ : ECertCreateReq)
    (w : World) :
  let r := fst (callECACreateCertificate node in_ w) in
  let w' := snd (callECACreateCertificate node in_ w) in
  let addr := getECAPAddr (conf node) in
  files w' = files w /\ rand w' = rand w
  /\ match eca_Dial (eca w) addr with
     | Some err => r = Err err /\ sent w w' = [EvDial addr]
     | None =>
       r = match eca_CreateCertificate (eca w) in_ with
           | Ok cred => Ok (Creds_Cert cred, Creds_Key cred)
           | Err err => Err err
           end
       /\ sent w w' = [EvDial addr; EvCreateCertificate in_; EvClose]
     end.
Proof.
  cbv zeta. run.
  destruct (eca_Dial (eca w) (getECAPAddr (conf node))) as [e|]; cbn.
  - split; [reflexivity|]. split; [reflexivity|]. split; [reflexivity|].
    apply (sent_emit1 w).
  - destruct (eca_CreateCertificate (eca w) in_) as [cred|e]; cbn;
      (split; [reflexivity|]; split; [reflexivity|]; split; [reflexivity|]);
      apply (sent_emit3 w).
Qed.

(** *** Enrollment, step by step *)

(** An attempt touches no file, and puts nothing on the wire before it has
    a key and a signature: when key generation or signing fails nothing is
    sent; when the dial fails only the dial shows; otherwise one request is
    sent on one connection, which is closed whatever the authority
    answers. *)
Theorem enrollment_wire (node : nodeImpl) (id pw : string) (w : World) :
  let w' := snd (getEnrollmentCertificateFromECA node id pw w) in
  let addr := getECAPAddr (conf node) in
  files w' = files w
  /\ match utils_NewECDSAKey (rand w) with
     | (Err _, _) => sent w w' = []
     | (Ok priv, e1) =>
       match ecdsa_Sign e1 priv
               (utils_Hash (fst (proto_Marshal
                  (unsignedRequest (now w) id pw
                     (fst (x509_MarshalPKIXPublicKey (priv_PublicKey priv))))))) with
       | (Err _, _) => sent w w' = []
       | (Ok _, _) =>
         match eca_Dial (eca w) addr with
         | Some _ => sent w w' = [EvDial addr]
         | None => exists req, sent w w' = [EvDial addr; EvCreateCertificate req; EvClose]
         end
       end
     end.
Proof.
  cbv zeta. pose proof (enrollment_run node id pw w) as Hrun. cbv zeta in Hrun.
  destruct (utils_NewECDSAKey (rand w)) as [[priv|err] e1].
  2:{ rewrite Hrun. cbn. split; [reflexivity|]. unfold sent. cbn. apply drop_all. }
  destruct (ecdsa_Sign e1 priv _) as [[[r s]|err] e2].
  2:{ rewrite Hrun. cbn. split; [reflexivity|]. unfold sent. cbn. apply drop_all. }
  destruct (eca_Dial (eca w) (getECAPAddr (conf node))) as [err|]; rewrite Hrun; cbn [snd].
  - split; [reflexivity|]. unfold sent. cbn. apply drop_app_length.
  - split; [reflexivity|]. eexists. unfold sent. cbn.
    rewrite <- !app_assoc. apply drop_app_length.
Qed.

(** Every enrollment request an attempt sends names the identity and the
    password it was called with, as they are, and marks its public key and
    its signature as ECDSA; and an attempt that returns a certificate has
    sent such a request. *)
Theorem enrollment_request_names_caller (node : nodeImpl) (id pw : string)
    (w : World) :
  let w' := snd (getEnrollmentCertificateFromECA node id pw w) in
  (forall req,
      In (EvCreateCertificate req) (sent w w') ->
      ECertCreateReq_Id req = Some (mkIdentity id)
      /\ ECertCreateReq_Pw req = Some (mkPassword pw)
      /\ (exists pub, ECertCreateReq_Pub req = Some pub
                      /\ PublicKey_Type pub = CryptoType_ECDSA)
      /\ (exists sig, ECertCreateReq_Sig req = Some sig
                      /\ Signature_Type sig = CryptoType_ECDSA))
  /\ (forall priv cert key,
        fst (getEnrollmentCertificateFromECA node id pw w)
        = Returns (Ok (priv, cert, key)) ->
        exists req,
          sent w w' = [EvDial (getECAPAddr (conf node)); EvCreateCertificate req; EvClose]).
Proof.
  cbv zeta. split.
  - intros req Hin.
    destruct (enrollment_sent_request _ _ _ _ _ Hin)
      as (priv & e1 & r & s & e2 & _ & _ & ->).
    cbn. repeat split; eauto.
  - intros priv cert key Hok. exact (enrollment_success_sends _ _ _ _ _ _ _ Hok).
Qed.

(** The certificate and the key material a successful attempt returns are
    those of the answer of the authority to the request the attempt sent;
    the attempt checks neither. *)
Theorem enrollment_returns_answer (node : nodeImpl) (id pw : string) (w : World)
    (priv : ecdsa_PrivateKey) (cert key : bytes) :
  fst (getEnrollmentCertificateFromECA node id pw w) = Returns (Ok (priv, cert, key)) ->
  exists req cred pbCert,
    In (EvCreateCertificate req)
       (sent w (snd (getEnrollmentCertificateFromECA node id pw w)))
    /\ eca_CreateCertificate (eca w) req = Ok cred
    /\ Creds_Cert cred = Some pbCert
    /\ cert = Cert_Cert pbCert
    /\ key = Creds_Key cred.
Proof.
  pose proof (enrollment_run node id pw w) as Hrun. cbv zeta in Hrun.
  destruct (utils_NewECDSAKey (rand w)) as [[priv'|err] e1];
    [|rewrite Hrun; discriminate].
  destruct (ecdsa_Sign e1 priv' _) as [[[r s]|err] e2];
    [|rewrite Hrun; discriminate].
  destruct (eca_Dial (eca w) (getECAPAddr (conf node))) as [err|];
    rewrite Hrun; [discriminate|]. cbn [fst snd].
  destruct (eca_CreateCertificate (eca w) _) as [cred|err] eqn:Hans; [|discriminate].
  destruct (Creds_Cert cred) as [pbCert|] eqn:Hcert; [|discriminate].
  intros [= _ <- <-].
  lazymatch type of Hans with
  | eca_CreateCertificate _ ?q = _ => exists q, cred, pbCert
  end.
  split; [|auto].
  unfold sent. cbn. rewrite <- !app_assoc, drop_app_length.
  right. left. reflexivity.
Qed.

(** An attempt panics exactly when every step succeeded and the answer of
    the authority holds no certificate: [pbCert.Cert] then dereferences a
    nil pointer. *)
Theorem enrollment_panics_iff (node : nodeImpl) (id pw : string) (w : World) :
  fst (getEnrollmentCertificateFromECA node id pw w) = Panics
  <-> exists priv e1 r s e2 cred,
        utils_NewECDSAKey (rand w) = (Ok priv, e1)
        /\ (let req0 := unsignedRequest (now w) id pw
                          (fst (x509_MarshalPKIXPublicKey (priv_PublicKey priv))) in
            ecdsa_Sign e1 priv (utils_Hash (fst (proto_Marshal req0))) = (Ok (r, s), e2)
            /\ eca_Dial (eca w) (getECAPAddr (conf node)) = None
            /\ eca_CreateCertificate (eca w)
                 (set_Sig req0 (Some (mkSignature CryptoType_ECDSA
                                        (fst (big_MarshalText r))
                                        (fst (big_MarshalText s)))))
               = Ok cred
            /\ Creds_Cert cred = None).
Proof.
  pose proof (enrollment_run node id pw w) as Hrun. cbv zeta in Hrun. cbv zeta.
  split.
  - destruct (utils_NewECDSAKey (rand w)) as [[priv|err] e1];
      [|rewrite Hrun; discriminate].
    destruct (ecdsa_Sign e1 priv _) as [[[r s]|err] e2] eqn:Hsig;
      [|rewrite Hrun; discriminate].
    destruct (eca_Dial (eca w) (getECAPAddr (conf node))) as [err|];
      rewrite Hrun; [discriminate|]. cbn [fst].
    destruct (eca_CreateCertificate (eca w) _) as [cred|err] eqn:Hans; [|discriminate].
    destruct (Creds_Cert cred) as [pbCert|] eqn:Hcert; [discriminate|].
    intros _. exists priv, e1, r, s, e2, cred. auto.
  - intros (priv & e1 & r & s & e2 & cred & Hkey & Hsig & Hdial & Hans & Hcert).
    rewrite Hkey, Hsig, Hdial in Hrun. rewrite Hrun, Hans. cbn. now rewrite Hcert.
Qed.
End Calls.

(** ** More of the code run on the small library *)

(** Loading the file of [exWorld_mixed]: two blocks are passed over, the
    two certificates are in the pool. *)
Lemma load_collects_block_certificates_example :
  let res := loadECACertsChain exNode exWorld_mixed in
  In (mk_x509_Certificate exRootDER) (rootsCertPool (snd (fst res)))
  /\ In (mk_x509_Certificate exSecondDER) (rootsCertPool (snd (fst res))).
Proof.
  pose proof (load_collects_block_certificates exNode exWorld_mixed
                (mkFile ([x4b; x01; xaa; x43; x01; xbb]
                         ++ ex_DERCertToPEM exRootDER ++ ex_DERCertToPEM exSecondDER)
                        perm_0700) eq_refl eq_refl) as [_ Hpool].
  split; apply Hpool; right.
  - exists (mk_pem_Block "CERTIFICATE" [] exRootDER). split; [|reflexivity].
    vm_compute. auto.
  - exists (mk_pem_Block "CERTIFICATE" [] exSecondDER). split; [|reflexivity].
    vm_compute. auto 6.
Defined.

(** The pool of [exNode_withRoot] holds one of the two certificates of the
    file of [exWorld_mixed]: that one is not added again. *)
Lemma load_keeps_pool_without_duplicates_example :
  rootsCertPool (snd (fst (loadECACertsChain exNode_withRoot exWorld_mixed)))
  = [mk_x509_Certificate exRootDER; mk_x509_Certificate exSecondDER]
  /\ List.NoDup (rootsCertPool (snd (fst (loadECACertsChain exNode_withRoot exWorld_mixed)))).
Proof.
  split; [reflexivity|].
  apply (load_keeps_pool_without_duplicates exNode_withRoot exWorld_mixed).
  repeat constructor. intros [].
Defined.

(** In [exWorld] every step of the retrieval succeeds. *)
Lemma retrieve_succeeds_example :
  fst (retrieveECACertsChain exNode "validator" exWorld) = None.
Proof.
  apply (proj2 (retrieve_succeeds_iff exNode "validator" exWorld)).
  split; [reflexivity|].
  exists (mkCert exRootDER), (mk_x509_Certificate exRootDER).
  repeat split.
Defined.

(** A file beside the trust file is as it was after a retrieval. *)
Lemma retrieve_persists_fetched_certificate_example :
  files (snd (retrieveECACertsChain exNode "validator" exWorld_otherFile))
    !! "/var/openchain/tca.cert" = Some oldFile.
Proof.
  refine (proj1 (retrieve_persists_fetched_certificate exNode "validator"
                   exWorld_otherFile) "/var/openchain/tca.cert" _).
  discriminate.
Defined.

(** Two retrievals in [exWorld], one after the other. *)
Lemma retrieve_twice_same_files_example :
  let w1 := snd (retrieveECACertsChain exNode "validator" exWorld) in
  files (snd (retrieveECACertsChain exNode "validator" w1)) = files w1.
Proof.
  exact (retrieve_twice_same_files exNode "validator" "validator" exWorld
           eq_refl eq_refl).
Defined.

(** An authority that cannot be dialed: the error of the dial comes back. *)
Lemma retrieve_stops_at_fetch_error_example :
  let w := set_eca exWorld unreachableECA in
  retrieveECACertsChain exNode "validator" w
  = (Some (grpc_rpcError 14 "connection refused"), snd (getECACertificate exNode w))
  /\ files (snd (retrieveECACertsChain exNode "validator" w)) = files w.
Proof.
  exact (retrieve_stops_at_fetch_error exNode "validator"
           (set_eca exWorld unreachableECA)
           (grpc_rpcError 14 "connection refused") eq_refl).
Defined.

(** The attempt for alice sends one request; it names alice and her
    password. *)
Lemma enrollment_request_names_caller_example :
  exists req,
    sent exWorld (snd (getEnrollmentCertificateFromECA exNode "alice" "pw123" exWorld))
    = [EvDial "eca.example:50051"; EvCreateCertificate req; EvClose]
    /\ ECertCreateReq_Id req = Some (mkIdentity "alice")
    /\ ECertCreateReq_Pw req = Some (mkPassword "pw123").
Proof.
  destruct (enrollment_request_names_caller exNode "alice" "pw123" exWorld)
    as (Hnames & Hsends).
  destruct (Hsends _ _ _ eq_refl) as (req & Hsent).
  destruct (Hnames req) as (Hid & Hpw & _); [rewrite Hsent; right; left; reflexivity|].
  exists req. auto.
Defined.

(** The attempt for alice in [exWorld] returns what the authority answered. *)
Lemma enrollment_returns_answer_example :
  exists req cred pbCert,
    In (EvCreateCertificate req)
       (sent exWorld (snd (getEnrollmentCertificateFromECA exNode "alice" "pw123" exWorld)))
    /\ eca_CreateCertificate exECA req = Ok cred
    /\ Creds_Cert cred = Some pbCert
    /\ exECertDER = Cert_Cert pbCert
    /\ [] = Creds_Key cred.
Proof.
  exact (enrollment_returns_answer exNode "alice" "pw123" exWorld
           (mk_ecdsa_PrivateKey (mk_ecdsa_PublicKey P384 8 8) 1) exECertDER []
           eq_refl).
Defined.

(** An authority that answers without a certificate makes the attempt
    panic. *)
Lemma enrollment_panics_example :
  fst (getEnrollmentCertificateFromECA exNode "alice" "pw123"
         (set_eca exWorld certlessECA)) = Panics.
Proof.
  apply (proj2 (enrollment_panics_iff exNode "alice" "pw123"
                  (set_eca exWorld certlessECA))).
  exists (mk_ecdsa_PrivateKey (mk_ecdsa_PublicKey P384 8 8) 1), 1%nat, 2, 212, 2%nat,
         (mkCreds None [x01]).
  repeat split.
Defined.
